(** * baselines/common/models.py: the catalogue of network builders

    A shallow embedding of [baselines.common.models].  The module is glue
    over a tensor framework: every builder returns a closure which, applied
    to an input tensor, adds layers to a computation graph.  The graph that
    a closure builds is represented by a first-order term ([tensor]), one
    constructor per framework primitive that the module calls; Python
    exceptions are values of an error type; the only output on stdout (the
    line printed by [mlp]) is returned next to the result. *)

From Stdlib Require Import ZArith QArith Qminmax List String Ascii DecimalString Lia.
From stdpp Require Import base option gmap strings fin_maps.

Import ListNotations.
Open Scope string_scope.
Open Scope Z_scope.

(** ** Python exceptions and the error monad

    [ShapeError] stands for the exception with which the tensor framework
    refuses operands whose shapes do not fit. *)

Inductive exn : Type :=
| IndexError
| ZeroDivisionError
| TypeError_multiple_values (callee keyword : string)
| ValueError (msg : string)
| ShapeError.

Inductive result (A : Type) : Type :=
| Ok (a : A)
| Raise (e : exn).
Arguments Ok {A} a.
Arguments Raise {A} e.

Definition bind {A B : Type} (m : result A) (k : A -> result B) : result B :=
  match m with
  | Ok a => k a
  | Raise e => Raise e
  end.

Notation "'try!' x ':=' m 'in' k" := (bind m (fun x => k))
  (at level 10, x pattern, m at level 100, k at level 200).

(** [l[i]] for a non-negative index, as produced by [range]. *)
Definition getitem {A : Type} (l : list A) (i : nat) : result A :=
  match nth_error l i with
  | Some a => Ok a
  | None => Raise IndexError
  end.

(** ** Values that cross the framework boundary *)

Inductive dtype : Type := tf_float32.

(** [tf.nn.relu] and [tf.tanh]. *)
Inductive activation : Type := tf_nn_relu | tf_tanh.

(** An initialisation scale: the module only ever writes [np.sqrt(2)]. *)
Inductive scale : Type := np_sqrt (z : Z).

(** The two recurrent cells of [baselines.a2c.utils]. *)
Inductive cell : Type := utils_lstm | utils_lnlstm.

(** Values carried by [**conv_kwargs]. *)
Inductive pyval : Type :=
| PyInt (z : Z)
| PyStr (s : string)
| PyBool (b : bool).

Abbreviation kwargs := (gmap string pyval).

(** Modelled from the spec: the running mean/standard-deviation estimator
    of [baselines.common.mpi_running_mean_std], which is not part of this
    module: an object built from the per-feature shape, whose [mean] and
    [std] are tensors of that shape ([rms_mean] and [rms_std] below). *)
Record RunningMeanStd : Type := mkRMS { rms_shape : list Z }.

(** ** Graph terms

    [tensor] has one constructor per primitive call; [tseq] is a Python list
    of per-step tensors, as returned by [batch_to_seq] and by the first
    component of the recurrent cells. *)

Inductive tensor : Type :=
| Input (name : string) (shape : list Z)
| tf_placeholder (dt : dtype) (shape : list Z)
| tf_cast (x : tensor) (dt : dtype)
| tf_div_scalar (x : tensor) (c : Q)
| tf_layers_flatten (x : tensor)
| apply_activation (a : activation) (x : tensor)
| conv (x : tensor) (scope : string) (nf rf stride : Z)
       (init_scale : scale) (kw : kwargs)
| conv_to_fc (x : tensor)
| fc (x : tensor) (scope : string) (nh : Z) (init_scale : scale)
| layers_convolution2d (var_scope : string) (x : tensor)
       (num_outputs kernel_size stride : Z)
       (activation_fn : activation) (kw : kwargs)
| seq_to_batch (s : tseq)
| cell_state (c : cell) (xs ms : tseq) (S : tensor) (scope : string) (nh : Z)
| rms_mean (r : RunningMeanStd)
| rms_std (r : RunningMeanStd)
| tf_sub (x y : tensor)
| tf_div (x y : tensor)
| tf_clip_by_value (x : tensor) (lo hi : Q)
with tseq : Type :=
| batch_to_seq (h : tensor) (nbatch nsteps : Z)
| cell_output (c : cell) (xs ms : tseq) (S : tensor) (scope : string) (nh : Z).

(** A numpy array: its shape and its elements in row-major order. *)
Record ndarray : Type := mkArray { nd_shape : list Z; nd_data : list Q }.

Definition shape_size (shape : list Z) : Z := fold_right Z.mul 1 shape.

(** [np.zeros(shape, dtype=float)]; numpy refuses a negative dimension. *)
Definition np_zeros (shape : list Z) : result ndarray :=
  if forallb (fun d => (0 <=? d)%Z) shape
  then Ok {| nd_shape := shape;
             nd_data := repeat 0%Q (Z.to_nat (shape_size shape)) |}
  else Raise (ValueError "negative dimensions are not allowed").

(** [a // b] for a known dimension [a] and an integer [b]: Rocq's [Z.div]
    rounds like Python's floor division, and Python raises on a zero
    divisor. *)
Definition floordiv (a b : Z) : result Z :=
  if (b =? 0)%Z then Raise ZeroDivisionError else Ok (a / b)%Z.

(** Values of the state dictionary of the recurrent builders. *)
Inductive dictval : Type :=
| DTensor (t : tensor)
| DArray (a : ndarray).

Abbreviation state_dict := (gmap string dictval).

(** What every network function returns: the output and the extra state. *)
Abbreviation net_output := (tensor * option (gmap string dictval))%type.

(** ** Calls with [**conv_kwargs]

    A call [f(x, k=v, **conv_kwargs)] raises [TypeError] ("got multiple
    values for ...") when [conv_kwargs] binds a keyword written at the call
    site or the name of a parameter filled positionally.  What the callee
    makes of the remaining keywords is the callee's business. *)

Fixpoint first_bound (explicit : list string) (kw : kwargs) : option string :=
  match explicit with
  | [] => None
  | k :: rest =>
      match kw !! k with
      | Some _ => Some k
      | None => first_bound rest kw
      end
  end.

Definition splat (callee : string) (explicit : list string) (kw : kwargs)
  : result unit :=
  match first_bound explicit kw with
  | Some k =>
      Raise (TypeError_multiple_values callee k)
  | None => Ok tt
  end.

Definition conv_keywords : list string := ["nf"; "rf"; "stride"; "init_scale"].

Definition call_conv (x : tensor) (scope : string) (nf rf stride : Z)
                     (init_scale : scale) (kw : kwargs) : result tensor :=
  try! _ := splat "conv" conv_keywords kw in
  Ok (conv x scope nf rf stride init_scale kw).

(** ** nature_cnn *)

Definition nature_cnn (unscaled_images : tensor) (conv_kwargs : kwargs)
  : result tensor :=
  let scaled_images := tf_div_scalar (tf_cast unscaled_images tf_float32) 255 in
  let activ := apply_activation tf_nn_relu in
  try! c1 := call_conv scaled_images "c1" 32 8 4 (np_sqrt 2) conv_kwargs in
  let h := activ c1 in
  try! c2 := call_conv h "c2" 64 4 2 (np_sqrt 2) conv_kwargs in
  let h2 := activ c2 in
  try! c3 := call_conv h2 "c3" 64 3 1 (np_sqrt 2) conv_kwargs in
  let h3 := activ c3 in
  let h3 := conv_to_fc h3 in
  Ok (activ (fc h3 "fc1" 512 (np_sqrt 2))).

(** ** mlp *)

(** The line that [mlp]'s network function prints: the sizes, and the
    argument of [str]. *)
Inductive printed_activation : Type :=
| PrNone
| PrList (l : list activation).

Record stdout_line : Type :=
  mkLine { ln_sizes : list Z; ln_activation : printed_activation }.

(** ['mlp_fc{}'.format(i)]. *)
Definition mlp_scope (i : nat) : string :=
  "mlp_fc" ++ NilZero.string_of_uint (Nat.to_uint i).

(** The body of the loop [for i in range(num_layers)], on the remaining
    indices. *)
Fixpoint mlp_loop (activations : list activation) (hidden_layer_sizes : list Z)
                  (indices : list nat) (h : tensor) : result tensor :=
  match indices with
  | [] => Ok h
  | i :: rest =>
      try! a := getitem activations i in
      try! nh := getitem hidden_layer_sizes i in
      mlp_loop activations hidden_layer_sizes rest
               (apply_activation a (fc h (mlp_scope i) nh (np_sqrt 2)))
  end.

(** [range(n)] for an integer [n]: empty when [n <= 0]. *)
Definition range (n : Z) : list nat := seq 0 (Z.to_nat n).

Definition mlp (num_layers : Z) (num_hidden : Z) (activation_arg : option activation)
               (X : tensor) : stdout_line * result net_output :=
  let hidden_layer_sizes := [64; 64] in
  let activations := [tf_nn_relu; tf_nn_relu] in
  let line :=
    mkLine hidden_layer_sizes
           (match activation_arg with
            | None => PrNone
            | Some _ => PrList activations
            end) in
  let h := tf_layers_flatten X in
  (line,
   try! h := mlp_loop activations hidden_layer_sizes (range num_layers) h in
   Ok (h, None)).

(** The defaults of [def mlp(num_layers=2, num_hidden=64, activation=tf.tanh)]. *)
Definition mlp_default : tensor -> stdout_line * result net_output :=
  mlp 2 64 (Some tf_tanh).

(** ** cnn and cnn_small *)

(** The call [nature_cnn(X, **conv_kwargs)]: [X] fills the parameter
    [unscaled_images]. *)
Definition call_nature_cnn (X : tensor) (conv_kwargs : kwargs) : result tensor :=
  try! _ := splat "nature_cnn" ["unscaled_images"] conv_kwargs in
  nature_cnn X conv_kwargs.

Definition cnn (conv_kwargs : kwargs) (X : tensor) : result net_output :=
  try! h := call_nature_cnn X conv_kwargs in
  Ok (h, None).

Definition cnn_small (conv_kwargs : kwargs) (X : tensor) : result net_output :=
  let h := tf_div_scalar (tf_cast X tf_float32) 255 in
  let activ := apply_activation tf_nn_relu in
  try! c1 := call_conv h "c1" 8 8 4 (np_sqrt 2) conv_kwargs in
  let h := activ c1 in
  try! c2 := call_conv h "c2" 16 4 2 (np_sqrt 2) conv_kwargs in
  let h := activ c2 in
  let h := conv_to_fc h in
  let h := activ (fc h "fc1" 128 (np_sqrt 2)) in
  Ok (h, None).

(** ** conv_only *)

Definition convolution2d_keywords : list string :=
  ["num_outputs"; "kernel_size"; "stride"; "activation_fn"].

(** The loop [for num_outputs, kernel_size, stride in convs], inside
    [tf.variable_scope("convnet")]. *)
Fixpoint conv_only_loop (convs : list (Z * Z * Z)) (conv_kwargs : kwargs)
                        (out : tensor) : result tensor :=
  match convs with
  | [] => Ok out
  | (num_outputs, kernel_size, stride) :: rest =>
      try! _ := splat "convolution2d" convolution2d_keywords conv_kwargs in
      conv_only_loop rest conv_kwargs
        (layers_convolution2d "convnet" out num_outputs kernel_size stride
                              tf_nn_relu conv_kwargs)
  end.

Definition conv_only (convs : list (Z * Z * Z)) (conv_kwargs : kwargs)
                     (X : tensor) : result net_output :=
  let out := tf_div_scalar (tf_cast X tf_float32) 255 in
  try! out := conv_only_loop convs conv_kwargs out in
  Ok (out, None).

(** The default of [def conv_only(convs=[(32, 8, 4), (64, 4, 2), (64, 3, 1)], ...)]. *)
Definition conv_only_default_convs : list (Z * Z * Z) :=
  [(32, 8, 4); (64, 4, 2); (64, 3, 1)].

(** ** _normalize_clip_observation *)

(** Python's [min] and [max] on a list of finite numbers: the first smallest
    (largest) element, [ValueError] on the empty list.  The elements are
    rationals: a NaN, on which the comparisons of floats are not an order,
    is outside the model. *)
Definition py_min (l : list Q) : result Q :=
  match l with
  | [] => Raise (ValueError "min() arg is an empty sequence")
  | x :: rest =>
      Ok (fold_left (fun acc y => if Qle_bool acc y then acc else y) rest x)
  end.

Definition py_max (l : list Q) : result Q :=
  match l with
  | [] => Raise (ValueError "max() arg is an empty sequence")
  | x :: rest =>
      Ok (fold_left (fun acc y => if Qle_bool y acc then acc else y) rest x)
  end.

(** ** Static shapes

    The module reads static shapes ([X.shape[0]], [x.shape[1:]],
    [S.shape.as_list()]), so the embedding carries the framework's shape
    inference.  All dimensions are known integers.  [None] is the shape of a
    term whose operands do not fit, that is, of a graph that the framework
    would have refused to build.  The recurrent builders, which split the
    batch themselves, raise [ShapeError] when the split does not fit. *)

(** numpy-style broadcasting of two shapes, on the reversed lists. *)
Fixpoint broadcast_rev (a b : list Z) : option (list Z) :=
  match a, b with
  | [], _ => Some b
  | _, [] => Some a
  | x :: a', y :: b' =>
      match (if x =? y then Some x
             else if x =? 1 then Some y
             else if y =? 1 then Some x else None),
            broadcast_rev a' b' with
      | Some d, Some r => Some (d :: r)
      | _, _ => None
      end
  end.

Definition broadcast (a b : list Z) : option (list Z) :=
  match broadcast_rev (rev a) (rev b) with
  | Some r => Some (rev r)
  | None => None
  end.

Section Framework.

(** The convolution helper [baselines.a2c.utils.conv] and the framework's
    [layers.convolution2d] are not part of this module; how they pad, and
    so the spatial size they produce, is left open: [conv_out kw dims nf rf
    stride] are the three non-batch dimensions of the output for an input
    whose non-batch dimensions are [dims]. *)
Variable conv_out : kwargs -> Z * Z * Z -> Z -> Z -> Z -> Z * Z * Z.
Variable convolution2d_out : kwargs -> Z * Z * Z -> Z -> Z -> Z -> Z * Z * Z.

(** Modelled from the spec: the shape rules of the helpers of
    [baselines.a2c.utils], whose code is not in this module.  [fc] is a
    fully-connected layer of width [nh] on a [batch, features] tensor;
    [conv_to_fc] flattens all but the batch dimension; a convolution keeps
    the batch dimension; [batch_to_seq h nenv nsteps] splits a batch into
    [nsteps] tensors of [nenv] rows; a recurrent cell of hidden size [nh]
    maps each of them to a [nenv, nh] tensor (with or without layer
    normalisation) and returns a new state shaped like the state it is given;
    [seq_to_batch] merges the steps back into a flat batch.  The rules of
    [tf.cast], [tf.layers.flatten], the activations, the arithmetic
    operators and [tf.clip_by_value] are the framework's. *)
Fixpoint shape_of (t : tensor) : option (list Z) :=
  match t with
  | Input _ shape => Some shape
  | tf_placeholder _ shape => Some shape
  | tf_cast x _ => shape_of x
  | tf_div_scalar x _ => shape_of x
  | tf_layers_flatten x =>
      match shape_of x with
      | Some (n :: rest) => Some [n; shape_size rest]
      | _ => None
      end
  | apply_activation _ x => shape_of x
  | conv x _ nf rf stride _ kw =>
      match shape_of x with
      | Some [n; a; b; c] =>
          let '(a', b', c') := conv_out kw (a, b, c) nf rf stride in
          Some [n; a'; b'; c']
      | _ => None
      end
  | conv_to_fc x =>
      match shape_of x with
      | Some (n :: rest) => Some [n; shape_size rest]
      | _ => None
      end
  | fc x _ nh _ =>
      match shape_of x with
      | Some [n; _] => Some [n; nh]
      | _ => None
      end
  | layers_convolution2d _ x num_outputs kernel_size stride _ kw =>
      match shape_of x with
      | Some [n; a; b; c] =>
          let '(a', b', c') :=
            convolution2d_out kw (a, b, c) num_outputs kernel_size stride in
          Some [n; a'; b'; c']
      | _ => None
      end
  | seq_to_batch s =>
      match seq_shape_of s with
      | Some (nsteps, [nenv; nh]) => Some [nenv * nsteps; nh]
      | _ => None
      end
  | cell_state _ xs ms S0 _ nh =>
      match seq_shape_of xs, seq_shape_of ms, shape_of S0 with
      | Some _, Some _, Some [nenv; w] =>
          if w =? 2 * nh then Some [nenv; w] else None
      | _, _, _ => None
      end
  | rms_mean r => Some (rms_shape r)
  | rms_std r => Some (rms_shape r)
  | tf_sub x y | tf_div x y =>
      match shape_of x, shape_of y with
      | Some a, Some b => broadcast a b
      | _, _ => None
      end
  | tf_clip_by_value x _ _ => shape_of x
  end
with seq_shape_of (s : tseq) : option (Z * list Z) :=
  match s with
  | batch_to_seq h nenv nsteps =>
      match shape_of h with
      | Some shape =>
          if (0 <? nenv * nsteps) && (shape_size shape mod (nenv * nsteps) =? 0)
          then Some (nsteps, [nenv; shape_size shape / (nenv * nsteps)])
          else None
      | None => None
      end
  | cell_output _ xs ms S0 _ nh =>
      match seq_shape_of xs, seq_shape_of ms, shape_of S0 with
      | Some (nsteps, [nenv; _]), Some _, Some [_; w] =>
          if w =? 2 * nh then Some (nsteps, [nenv; nh]) else None
      | _, _, _ => None
      end
  end.

(** [t.shape[0]]. *)
Definition shape0 (t : tensor) : result Z :=
  match shape_of t with
  | Some (n :: _) => Ok n
  | Some [] => Raise IndexError
  | None => Raise ShapeError
  end.

(** [t.shape.as_list()]. *)
Definition shape_as_list (t : tensor) : result (list Z) :=
  match shape_of t with
  | Some shape => Ok shape
  | None => Raise ShapeError
  end.

(** [t.shape[1:]]. *)
Definition shape_tail (t : tensor) : result (list Z) :=
  match shape_of t with
  | Some shape => Ok (tl shape)
  | None => Raise ShapeError
  end.

(** ** lstm, cnn_lstm, cnn_lnlstm *)

(** The two branches of [if layer_norm:]; both return the pair
    [(h5, snew)]. *)
Definition run_cell (layer_norm : bool) (xs ms : tseq) (S : tensor) (nlstm : Z)
  : tseq * tensor :=
  if layer_norm
  then (cell_output utils_lnlstm xs ms S "lnlstm" nlstm,
        cell_state utils_lnlstm xs ms S "lnlstm" nlstm)
  else (cell_output utils_lstm xs ms S "lstm" nlstm,
        cell_state utils_lstm xs ms S "lstm" nlstm).

(** The dictionary [{'S':S, 'M':M, 'state':snew, 'initial_state':initial_state}]. *)
Definition make_state (S M snew : tensor) (initial_state : ndarray) : state_dict :=
  <["initial_state" := DArray initial_state]>
    (<["state" := DTensor snew]>
       (<["M" := DTensor M]>
          {["S" := DTensor S]})).

(** The call [batch_to_seq(h, nenv, nsteps)].  The helper reshapes [h] to
    [[nenv, nsteps, -1]] and splits it into [nsteps] tensors; when the
    elements of [h] do not fit, the framework refuses the graph and the
    exception propagates through the caller. *)
Definition call_batch_to_seq (h : tensor) (nenv nsteps : Z) : result tseq :=
  match seq_shape_of (batch_to_seq h nenv nsteps) with
  | Some _ => Ok (batch_to_seq h nenv nsteps)
  | None => Raise ShapeError
  end.

Definition lstm (nlstm : Z) (layer_norm : bool) (X : tensor) (nenv : Z)
  : result net_output :=
  try! nbatch := shape0 X in
  try! nsteps := floordiv nbatch nenv in
  let h := tf_layers_flatten X in
  let M := tf_placeholder tf_float32 [nbatch] in
  let S := tf_placeholder tf_float32 [nenv; 2 * nlstm] in
  try! xs := call_batch_to_seq h nenv nsteps in
  try! ms := call_batch_to_seq M nenv nsteps in
  let '(h5, snew) := run_cell layer_norm xs ms S nlstm in
  let h := seq_to_batch h5 in
  try! S_shape := shape_as_list S in
  try! initial_state := np_zeros S_shape in
  Ok (h, Some (make_state S M snew initial_state)).

Definition cnn_lstm (nlstm : Z) (layer_norm : bool) (conv_kwargs : kwargs)
                    (X : tensor) (nenv : Z) : result net_output :=
  try! nbatch := shape0 X in
  try! nsteps := floordiv nbatch nenv in
  try! h := call_nature_cnn X conv_kwargs in
  let M := tf_placeholder tf_float32 [nbatch] in
  let S := tf_placeholder tf_float32 [nenv; 2 * nlstm] in
  try! xs := call_batch_to_seq h nenv nsteps in
  try! ms := call_batch_to_seq M nenv nsteps in
  let '(h5, snew) := run_cell layer_norm xs ms S nlstm in
  let h := seq_to_batch h5 in
  try! S_shape := shape_as_list S in
  try! initial_state := np_zeros S_shape in
  Ok (h, Some (make_state S M snew initial_state)).

(** A network function of the recurrent builders; [nenv] defaults to 1. *)
Definition recurrent_fn : Type := tensor -> Z -> result net_output.

(** [cnn_lstm(nlstm, layer_norm=True, **conv_kwargs)]: building the closure
    already fails when [conv_kwargs] binds [layer_norm] again.  ([nlstm] is
    a parameter of [cnn_lnlstm] itself and never ends up in
    [conv_kwargs].) *)
Definition cnn_lnlstm (nlstm : Z) (conv_kwargs : kwargs) : result recurrent_fn :=
  try! _ := splat "cnn_lstm" ["layer_norm"] conv_kwargs in
  Ok (cnn_lstm nlstm true conv_kwargs).

(** ** _normalize_clip_observation *)

Definition _normalize_clip_observation (x : tensor) (clip_range : list Q)
  : result (tensor * RunningMeanStd) :=
  try! feature_shape := shape_tail x in
  let rms := mkRMS feature_shape in
  try! lo := py_min clip_range in
  try! hi := py_max clip_range in
  let norm_x := tf_clip_by_value (tf_div (tf_sub x (rms_mean rms)) (rms_std rms)) lo hi in
  Ok (norm_x, rms).

(** The default of [clip_range=[-5.0, 5.0]]. *)
Definition default_clip_range : list Q := [(-5)%Q; 5%Q].

(** ** get_network_builder *)

(** The function objects that [get_network_builder] can return, by
    signature. *)
Inductive builder : Type :=
| ConvBuilder (f : kwargs -> tensor -> result net_output)
| ConvOnlyBuilder (f : list (Z * Z * Z) -> kwargs -> tensor -> result net_output)
| MlpBuilder (f : Z -> Z -> option activation -> tensor -> stdout_line * result net_output)
| LstmBuilder (f : Z -> bool -> recurrent_fn)
| CnnLstmBuilder (f : Z -> bool -> kwargs -> recurrent_fn)
| CnnLnLstmBuilder (f : Z -> kwargs -> result recurrent_fn).

Definition get_network_builder (name : string) : result builder :=
  if String.eqb name "cnn" then Ok (ConvBuilder cnn)
  else if String.eqb name "cnn_small" then Ok (ConvBuilder cnn_small)
  else if String.eqb name "conv_only" then Ok (ConvOnlyBuilder conv_only)
  else if String.eqb name "mlp" then Ok (MlpBuilder mlp)
  else if String.eqb name "lstm" then Ok (LstmBuilder lstm)
  else if String.eqb name "cnn_lstm" then Ok (CnnLstmBuilder cnn_lstm)
  else if String.eqb name "cnn_lnlstm" then Ok (CnnLnLstmBuilder cnn_lnlstm)
  else Raise (ValueError ("Unknown network type: " ++ name)).

(** The names that the chain of comparisons recognises. *)
Definition architecture_names : list string :=
  ["cnn"; "cnn_small"; "conv_only"; "mlp"; "lstm"; "cnn_lstm"; "cnn_lnlstm"].

(** ** Reading a graph

    The convolution layers of a graph, from the input to the output, as
    (filters, kernel, stride) triples. *)
Fixpoint conv_layers (t : tensor) : list (Z * Z * Z) :=
  match t with
  | Input _ _ | tf_placeholder _ _ | rms_mean _ | rms_std _ => []
  | tf_cast x _ | tf_div_scalar x _ | tf_layers_flatten x
  | apply_activation _ x | conv_to_fc x | fc x _ _ _
  | tf_clip_by_value x _ _ => conv_layers x
  | conv x _ nf rf stride _ _ => (conv_layers x ++ [(nf, rf, stride)])%list
  | layers_convolution2d _ x num_outputs kernel_size stride _ _ =>
      (conv_layers x ++ [(num_outputs, kernel_size, stride)])%list
  | seq_to_batch s => seq_conv_layers s
  | cell_state _ xs _ _ _ _ => seq_conv_layers xs
  | tf_sub x y | tf_div x y => (conv_layers x ++ conv_layers y)%list
  end
with seq_conv_layers (s : tseq) : list (Z * Z * Z) :=
  match s with
  | batch_to_seq h _ _ => conv_layers h
  | cell_output _ xs _ _ _ _ => seq_conv_layers xs
  end.

(** The fully-connected layers of a graph, from the input to the output, as
    (scope, width) pairs. *)
Fixpoint fc_layers (t : tensor) : list (string * Z) :=
  match t with
  | Input _ _ | tf_placeholder _ _ | rms_mean _ | rms_std _ => []
  | tf_cast x _ | tf_div_scalar x _ | tf_layers_flatten x
  | apply_activation _ x | conv_to_fc x | conv x _ _ _ _ _ _
  | layers_convolution2d _ x _ _ _ _ _
  | tf_clip_by_value x _ _ => fc_layers x
  | fc x scope nh _ => (fc_layers x ++ [(scope, nh)])%list
  | seq_to_batch s => seq_fc_layers s
  | cell_state _ xs _ _ _ _ => seq_fc_layers xs
  | tf_sub x y | tf_div x y => (fc_layers x ++ fc_layers y)%list
  end
with seq_fc_layers (s : tseq) : list (string * Z) :=
  match s with
  | batch_to_seq h _ _ => fc_layers h
  | cell_output _ xs _ _ _ _ => seq_fc_layers xs
  end.

(** The same graph with every layer-normalised cell replaced by the plain
    cell: two graphs with the same image differ in the kind of their
    recurrent cells only. *)
Fixpoint forget_layer_norm (t : tensor) : tensor :=
  match t with
  | Input name shape => Input name shape
  | tf_placeholder dt shape => tf_placeholder dt shape
  | tf_cast x dt => tf_cast (forget_layer_norm x) dt
  | tf_div_scalar x c => tf_div_scalar (forget_layer_norm x) c
  | tf_layers_flatten x => tf_layers_flatten (forget_layer_norm x)
  | apply_activation a x => apply_activation a (forget_layer_norm x)
  | conv x scope nf rf stride init_scale kw =>
      conv (forget_layer_norm x) scope nf rf stride init_scale kw
  | conv_to_fc x => conv_to_fc (forget_layer_norm x)
  | fc x scope nh init_scale => fc (forget_layer_norm x) scope nh init_scale
  | layers_convolution2d vs x num_outputs kernel_size stride a kw =>
      layers_convolution2d vs (forget_layer_norm x) num_outputs kernel_size stride a kw
  | seq_to_batch s => seq_to_batch (seq_forget_layer_norm s)
  | cell_state _ xs ms S0 _ nh =>
      cell_state utils_lstm (seq_forget_layer_norm xs) (seq_forget_layer_norm ms)
                 (forget_layer_norm S0) "lstm" nh
  | rms_mean r => rms_mean r
  | rms_std r => rms_std r
  | tf_sub x y => tf_sub (forget_layer_norm x) (forget_layer_norm y)
  | tf_div x y => tf_div (forget_layer_norm x) (forget_layer_norm y)
  | tf_clip_by_value x lo hi => tf_clip_by_value (forget_layer_norm x) lo hi
  end
with seq_forget_layer_norm (s : tseq) : tseq :=
  match s with
  | batch_to_seq h nenv nsteps => batch_to_seq (forget_layer_norm h) nenv nsteps
  | cell_output _ xs ms S0 _ nh =>
      cell_output utils_lstm (seq_forget_layer_norm xs) (seq_forget_layer_norm ms)
                  (forget_layer_norm S0) "lstm" nh
  end.

Definition dict_forget_layer_norm (v : dictval) : dictval :=
  match v with
  | DTensor t => DTensor (forget_layer_norm t)
  | DArray a => DArray a
  end.

(** [conv_kwargs] binds none of [keys]. *)
Definition unbound (keys : list string) (kw : kwargs) : Prop :=
  first_bound keys kw = None.

(** One step of the loop of [conv_only]. *)
Definition conv_only_step (kw : kwargs) (out : tensor) (c : Z * Z * Z) : tensor :=
  let '(num_outputs, kernel_size, stride) := c in
  layers_convolution2d "convnet" out num_outputs kernel_size stride tf_nn_relu kw.

(** The graph of [nature_cnn] on [X]. *)
Definition nature_cnn_graph (kw : kwargs) (X : tensor) : tensor :=
  let relu := apply_activation tf_nn_relu in
  let x := tf_div_scalar (tf_cast X tf_float32) 255 in
  let h := relu (conv x "c1" 32 8 4 (np_sqrt 2) kw) in
  let h2 := relu (conv h "c2" 64 4 2 (np_sqrt 2) kw) in
  let h3 := relu (conv h2 "c3" 64 3 1 (np_sqrt 2) kw) in
  relu (fc (conv_to_fc h3) "fc1" 512 (np_sqrt 2)).

Definition output_forget_layer_norm (o : net_output) : net_output :=
  let '(h, st) := o in
  (forget_layer_norm h,
   match st with
   | Some d => Some (dict_forget_layer_norm <$> d)
   | None => None
   end).

Definition result_map {A B : Type} (f : A -> B) (r : result A) : result B :=
  match r with
  | Ok a => Ok (f a)
  | Raise e => Raise e
  end.

(** [tf.clip_by_value] on one element. *)
Definition clip_element (v lo hi : Q) : Q := Qmax lo (Qmin v hi).

(** Following the spec: "two layers of width 64 each with rectified-linear
    activation" on the flattened input. *)
Definition two_relu_layers_of_64 (X : tensor) : tensor :=
  apply_activation tf_nn_relu
    (fc (apply_activation tf_nn_relu
           (fc (tf_layers_flatten X) "mlp_fc0" 64 (np_sqrt 2)))
        "mlp_fc1" 64 (np_sqrt 2)).

Scheme tensor_mut_ind := Induction for tensor Sort Prop
  with tseq_mut_ind := Induction for tseq Sort Prop.
Combined Scheme tensor_tseq_ind from tensor_mut_ind, tseq_mut_ind.

(** * Properties *)

(** ** The registry *)

Lemma eqb_name_false (name known : string) :
  name <> known -> String.eqb name known = false.
Proof. intros Hne. now apply String.eqb_neq. Qed.

(** C1: each of the seven names is mapped to its own factory, and every
    other name raises the "unknown network type" error: the lookup compares
    whole strings and has no default. *)
Theorem get_network_builder_closed :
  get_network_builder "cnn" = Ok (ConvBuilder cnn) /\
  get_network_builder "cnn_small" = Ok (ConvBuilder cnn_small) /\
  get_network_builder "conv_only" = Ok (ConvOnlyBuilder conv_only) /\
  get_network_builder "mlp" = Ok (MlpBuilder mlp) /\
  get_network_builder "lstm" = Ok (LstmBuilder lstm) /\
  get_network_builder "cnn_lstm" = Ok (CnnLstmBuilder cnn_lstm) /\
  get_network_builder "cnn_lnlstm" = Ok (CnnLnLstmBuilder cnn_lnlstm) /\
  forall name : string,
    ~ In name architecture_names ->
    get_network_builder name = Raise (ValueError ("Unknown network type: " ++ name)).
Proof.
  repeat split.
  intros name Hout. unfold get_network_builder.
  rewrite !eqb_name_false; [reflexivity | ..];
    intros ->; apply Hout; unfold architecture_names; simpl; tauto.
Qed.

(** ** mlp *)

Lemma range_0 : range 0 = [].
Proof. reflexivity. Qed.

Lemma range_nonpos (n : Z) : n <= 0 -> range n = [].
Proof. intros Hn. unfold range. now replace (Z.to_nat n) with 0%nat by lia. Qed.

Lemma range_above_2 (n : Z) :
  2 < n -> exists rest, range n = 0%nat :: 1%nat :: 2%nat :: rest.
Proof.
  intros Hn. unfold range.
  destruct (Z.to_nat n) as [|[|[|k]]] eqn:E; try lia.
  simpl. eauto.
Qed.

(** The loop stops with [IndexError] as soon as it reaches index 2, whatever
    follows. *)
Lemma mlp_loop_index_2 (rest : list nat) (h : tensor) :
  mlp_loop [tf_nn_relu; tf_nn_relu] [64; 64] (2%nat :: rest) h = Raise IndexError.
Proof. reflexivity. Qed.

(** What the network function prints depends on [activation] only through
    the test [activation is None]. *)
Lemma mlp_prints (num_layers num_hidden : Z) (act : option activation) (X : tensor) :
  fst (mlp num_layers num_hidden act X) =
    mkLine [64; 64]
           (if act is None then PrNone else PrList [tf_nn_relu; tf_nn_relu]).
Proof. unfold mlp. simpl. now destruct act. Qed.

(** Neither [num_hidden] nor [activation] reaches the graph. *)
Lemma mlp_ignores_hidden_and_activation
      (num_layers num_hidden num_hidden' : Z) (act act' : option activation)
      (X : tensor) :
  snd (mlp num_layers num_hidden act X) = snd (mlp num_layers num_hidden' act' X).
Proof. reflexivity. Qed.

(** C9: [num_layers] drives the loop.  Above 2 the call raises
    [IndexError] (the two local lists have length 2); with 0 the flattened
    input is returned as it is; with 1 a single layer is built. *)
Theorem mlp_num_layers_drives_loop
        (num_hidden : Z) (act : option activation) (X : tensor) :
  (forall num_layers, 2 < num_layers ->
     snd (mlp num_layers num_hidden act X) = Raise IndexError) /\
  snd (mlp 0 num_hidden act X) = Ok (tf_layers_flatten X, None) /\
  snd (mlp 1 num_hidden act X) =
    Ok (apply_activation tf_nn_relu
          (fc (tf_layers_flatten X) "mlp_fc0" 64 (np_sqrt 2)), None) /\
  (forall num_layers h,
     snd (mlp num_layers num_hidden act X) = Ok (h, None) ->
     fc_layers X = [] ->
     Z.of_nat (length (fc_layers h)) = Z.max 0 num_layers).
Proof.
  split; [| split; [reflexivity | split; [reflexivity |]]].
  - intros num_layers Hn.
    destruct (range_above_2 num_layers Hn) as [rest Hr].
    unfold mlp. simpl. rewrite Hr. reflexivity.
  - intros num_layers h Hrun HX.
    destruct (Z_le_gt_dec num_layers 0) as [Hle | Hgt].
    + unfold mlp in Hrun. simpl in Hrun. rewrite (range_nonpos _ Hle) in Hrun.
      simpl in Hrun. injection Hrun as <-. simpl. rewrite HX. simpl. lia.
    + destruct (Z.eq_dec num_layers 1) as [-> | H1].
      { simpl in Hrun. injection Hrun as <-. simpl. rewrite HX. reflexivity. }
      destruct (Z.eq_dec num_layers 2) as [-> | H2].
      { simpl in Hrun. injection Hrun as <-. simpl. rewrite HX. reflexivity. }
      destruct (range_above_2 num_layers ltac:(lia)) as [rest Hr].
      unfold mlp in Hrun. simpl in Hrun. rewrite Hr in Hrun. discriminate Hrun.
Qed.

(** C2, amended: for [num_layers] 1 or 2 and any [num_hidden], the output
    has shape [[N, 64]] and the extra state is [None]. *)
Theorem mlp_output_shape
        (num_layers num_hidden : Z) (act : option activation) (X : tensor)
        (N H W C : Z) :
  shape_of X = Some [N; H; W; C] ->
  num_layers = 1 \/ num_layers = 2 ->
  exists h,
    snd (mlp num_layers num_hidden act X) = Ok (h, None) /\
    shape_of h = Some [N; 64].
Proof.
  intros HX [-> | ->]; eexists; (split; [reflexivity |]); simpl; now rewrite HX.
Qed.

(** C3, amended: [num_hidden] and [activation] are overridden by the local
    lists, so with [num_layers = 2] (the default) the graph is the flattened
    input followed by two dense layers of width 64 with rectified-linear
    activation; [num_layers] itself is not overridden, and for 0, 1 or 2 it
    is the number of dense layers. *)
Theorem mlp_hard_coded_layers
        (num_hidden : Z) (act : option activation) (X : tensor) :
  snd (mlp 2 num_hidden act X) = Ok (two_relu_layers_of_64 X, None) /\
  (forall num_layers num_hidden' act',
     snd (mlp num_layers num_hidden' act' X) = snd (mlp num_layers num_hidden act X)) /\
  (forall num_layers, 0 <= num_layers <= 2 -> fc_layers X = [] ->
     exists h,
       snd (mlp num_layers num_hidden act X) = Ok (h, None) /\
       Z.of_nat (length (fc_layers h)) = num_layers /\
       Forall (fun layer => snd layer = 64) (fc_layers h)).
Proof.
  split; [reflexivity | split; [reflexivity |]].
  intros num_layers Hn HX.
  assert (num_layers = 0 \/ num_layers = 1 \/ num_layers = 2) as [-> | [-> | ->]] by lia;
    eexists; (split; [reflexivity |]); simpl; rewrite HX; simpl;
    (split; [reflexivity | repeat constructor]).
Qed.

(** ** Keyword arguments *)

Lemma unbound_cons (k : string) (keys : list string) (kw : kwargs) :
  unbound (k :: keys) kw <-> kw !! k = None /\ unbound keys kw.
Proof.
  unfold unbound. simpl. destruct (kw !! k); split; try tauto; try discriminate.
  intros [Hk _]. discriminate Hk.
Qed.

Lemma splat_unbound (callee : string) (keys : list string) (kw : kwargs) :
  unbound keys kw -> splat callee keys kw = Ok tt.
Proof. unfold unbound, splat. now intros ->. Qed.

Lemma splat_bound (callee k : string) (v : pyval) (kw : kwargs) :
  kw !! k = Some v -> splat callee [k] kw = Raise (TypeError_multiple_values callee k).
Proof. unfold splat. simpl. now intros ->. Qed.

Lemma unbound_empty (keys : list string) : unbound keys ∅.
Proof.
  unfold unbound. induction keys as [| k keys IH]; simpl; [reflexivity |].
  now rewrite lookup_empty.
Qed.

(** ** The convolutional builders *)

Lemma nature_cnn_ok (kw : kwargs) (X : tensor) :
  unbound conv_keywords kw -> nature_cnn X kw = Ok (nature_cnn_graph kw X).
Proof.
  intros Hkw. unfold nature_cnn, call_conv.
  rewrite (splat_unbound _ _ _ Hkw). reflexivity.
Qed.

Lemma nature_cnn_graph_shape (kw : kwargs) (X : tensor) (N H W C : Z) :
  shape_of X = Some [N; H; W; C] ->
  shape_of (nature_cnn_graph kw X) = Some [N; 512].
Proof.
  intros HX. unfold nature_cnn_graph. simpl. rewrite HX.
  destruct (conv_out kw (H, W, C) 32 8 4) as [[a1 b1] c1].
  destruct (conv_out kw (a1, b1, c1) 64 4 2) as [[a2 b2] c2].
  destruct (conv_out kw (a2, b2, c2) 64 3 1) as [[a3 b3] c3].
  reflexivity.
Qed.

(** C4: the network function of [cnn] casts the input to floating point
    and divides it by 255, applies the three convolutions 32/8/4, 64/4/2 and
    64/3/1, each with initialisation scale sqrt(2) and followed by a
    rectified-linear activation, flattens, applies a fully-connected layer of
    width 512 with rectified-linear activation, and returns the result, of
    shape [[N, 512]], with [None]. *)
Theorem cnn_network (kw : kwargs) (X : tensor) :
  unbound ("unscaled_images" :: conv_keywords) kw ->
  cnn kw X =
    Ok (apply_activation tf_nn_relu
          (fc (conv_to_fc
                 (apply_activation tf_nn_relu
                    (conv (apply_activation tf_nn_relu
                             (conv (apply_activation tf_nn_relu
                                      (conv (tf_div_scalar (tf_cast X tf_float32) 255)
                                            "c1" 32 8 4 (np_sqrt 2) kw))
                                   "c2" 64 4 2 (np_sqrt 2) kw))
                          "c3" 64 3 1 (np_sqrt 2) kw)))
              "fc1" 512 (np_sqrt 2)),
        None) /\
  (forall h, cnn kw X = Ok (h, None) ->
     (conv_layers X = [] -> conv_layers h = [(32, 8, 4); (64, 4, 2); (64, 3, 1)]) /\
     (forall N H W C, shape_of X = Some [N; H; W; C] -> shape_of h = Some [N; 512])).
Proof.
  intros Hkw. apply unbound_cons in Hkw as [Himg Hconv].
  assert (Hrun : cnn kw X = Ok (nature_cnn_graph kw X, None)).
  { unfold cnn, call_nature_cnn, splat. simpl. rewrite Himg. simpl.
    now rewrite (nature_cnn_ok _ _ Hconv). }
  split; [exact Hrun |].
  intros h Hh. rewrite Hrun in Hh. injection Hh as <-. split.
  - intros HX. unfold nature_cnn_graph. simpl. now rewrite HX.
  - intros N H W C HX. now apply nature_cnn_graph_shape with H W C.
Qed.

Lemma conv_only_loop_ok (kw : kwargs) (convs : list (Z * Z * Z)) :
  convs = [] \/ unbound convolution2d_keywords kw ->
  forall out,
    conv_only_loop convs kw out = Ok (fold_left (conv_only_step kw) convs out).
Proof.
  intros [-> | Hkw]; [reflexivity |].
  induction convs as [| [[n k] s] convs IH]; intros out; simpl; [reflexivity |].
  rewrite (splat_unbound _ _ _ Hkw). simpl. apply IH.
Qed.

Lemma conv_layers_conv_only (kw : kwargs) (convs : list (Z * Z * Z)) :
  forall out,
    conv_layers (fold_left (conv_only_step kw) convs out) =
      (conv_layers out ++ convs)%list.
Proof.
  induction convs as [| [[n k] s] convs IH]; intros out; simpl.
  - now rewrite app_nil_r.
  - rewrite IH. simpl. now rewrite <- app_assoc.
Qed.

(** C7, amended: [cnn_small] is a two-convolution variant with the fixed
    layers 8/8/4 and 16/4/2 and a fully-connected layer of width 128;
    [conv_only] applies one convolution per (filters, kernel, stride) triple
    of its ordered list [convs], three by default.  Both divide the input,
    cast to floating point, by 255 and use rectified-linear activations. *)
Theorem small_convolutional_builders (kw : kwargs) (X : tensor) :
  (unbound conv_keywords kw ->
   exists h,
     cnn_small kw X = Ok (h, None) /\
     h = apply_activation tf_nn_relu
           (fc (conv_to_fc
                  (apply_activation tf_nn_relu
                     (conv (apply_activation tf_nn_relu
                              (conv (tf_div_scalar (tf_cast X tf_float32) 255)
                                    "c1" 8 8 4 (np_sqrt 2) kw))
                           "c2" 16 4 2 (np_sqrt 2) kw)))
               "fc1" 128 (np_sqrt 2)) /\
     (conv_layers X = [] -> conv_layers h = [(8, 8, 4); (16, 4, 2)])) /\
  (forall convs,
     convs = [] \/ unbound convolution2d_keywords kw ->
     exists out,
       conv_only convs kw X = Ok (out, None) /\
       out = fold_left (conv_only_step kw) convs
                       (tf_div_scalar (tf_cast X tf_float32) 255) /\
       (conv_layers X = [] -> conv_layers out = convs)) /\
  conv_only_default_convs = [(32, 8, 4); (64, 4, 2); (64, 3, 1)].
Proof.
  split; [| split; [| reflexivity]].
  - intros Hkw. eexists. split; [| split; [reflexivity |]].
    + unfold cnn_small, call_conv. rewrite (splat_unbound _ _ _ Hkw). reflexivity.
    + intros HX. simpl. now rewrite HX.
  - intros convs Hok. eexists. split; [| split; [reflexivity |]].
    + unfold conv_only. rewrite (conv_only_loop_ok _ _ Hok). reflexivity.
    + intros HX. rewrite conv_layers_conv_only. simpl. now rewrite HX.
Qed.

(** ** The recurrent builders *)

Lemma floordiv_pos (a b : Z) : 0 < b -> floordiv a b = Ok (a / b).
Proof.
  intros Hb. unfold floordiv. now replace (b =? 0) with false by lia.
Qed.

Lemma floordiv_zero (a : Z) : floordiv a 0 = Raise ZeroDivisionError.
Proof. reflexivity. Qed.

Lemma np_zeros_state (nenv nlstm : Z) :
  0 <= nenv -> 0 <= nlstm ->
  np_zeros [nenv; 2 * nlstm] =
    Ok (mkArray [nenv; 2 * nlstm] (repeat 0%Q (Z.to_nat (nenv * (2 * nlstm))))).
Proof.
  intros Hn Hl. unfold np_zeros. simpl.
  replace (0 <=? nenv) with true by lia.
  replace (0 <=? 2 * nlstm) with true by lia.
  simpl. unfold shape_size. simpl. now rewrite Z.mul_1_r.
Qed.

Lemma repeat_all_zero (n : nat) : Forall (fun v : Q => v = 0%Q) (repeat 0%Q n).
Proof. induction n; simpl; constructor; auto. Qed.

(** When the split fits. *)
Lemma batch_to_seq_shape (h : tensor) (nenv nsteps : Z) (s : list Z) :
  shape_of h = Some s -> 0 < nenv * nsteps ->
  shape_size s mod (nenv * nsteps) = 0 ->
  seq_shape_of (batch_to_seq h nenv nsteps) =
    Some (nsteps, [nenv; shape_size s / (nenv * nsteps)]).
Proof.
  intros Hs Hpos Hmod. simpl. rewrite Hs, Hmod.
  now replace (0 <? nenv * nsteps) with true by lia.
Qed.

Lemma call_batch_to_seq_ok (h : tensor) (nenv nsteps : Z) (s : list Z) :
  shape_of h = Some s -> 0 < nenv * nsteps ->
  shape_size s mod (nenv * nsteps) = 0 ->
  call_batch_to_seq h nenv nsteps = Ok (batch_to_seq h nenv nsteps).
Proof.
  intros Hs Hpos Hmod. unfold call_batch_to_seq.
  now rewrite (batch_to_seq_shape _ _ _ _ Hs Hpos Hmod).
Qed.

Lemma call_batch_to_seq_inv (h : tensor) (nenv nsteps : Z) (xs : tseq) :
  call_batch_to_seq h nenv nsteps = Ok xs ->
  xs = batch_to_seq h nenv nsteps /\
  exists sh, seq_shape_of (batch_to_seq h nenv nsteps) = Some sh.
Proof.
  unfold call_batch_to_seq.
  destruct (seq_shape_of (batch_to_seq h nenv nsteps)) as [sh |];
    [| discriminate].
  intros [= <-]. eauto.
Qed.



Lemma exact_split (nenv nbatch : Z) :
  0 < nenv -> nbatch mod nenv = 0 -> nenv * (nbatch / nenv) = nbatch.
Proof.
  intros Hn Hdiv. pose proof (Z.div_mod nbatch nenv ltac:(lia)). lia.
Qed.

Lemma mask_split_ok (nenv nbatch : Z) :
  0 < nenv -> 0 < nbatch -> nbatch mod nenv = 0 ->
  call_batch_to_seq (tf_placeholder tf_float32 [nbatch]) nenv (nbatch / nenv) =
    Ok (batch_to_seq (tf_placeholder tf_float32 [nbatch]) nenv (nbatch / nenv)).
Proof.
  intros Hn Hb Hdiv. apply call_batch_to_seq_ok with [nbatch]; [reflexivity | |];
    rewrite (exact_split _ _ Hn Hdiv); [exact Hb |].
  unfold shape_size. simpl. rewrite Z.mul_1_r. apply Z_mod_same_full.
Qed.

(** What [lstm]'s network function returns when the environment count is
    positive and divides the batch size. *)
Lemma lstm_run (nlstm : Z) (layer_norm : bool) (X : tensor)
      (nenv nbatch : Z) (rest : list Z) :
  shape_of X = Some (nbatch :: rest) -> 0 < nenv -> 0 <= nlstm ->
  0 < nbatch -> nbatch mod nenv = 0 ->
  let M := tf_placeholder tf_float32 [nbatch] in
  let S := tf_placeholder tf_float32 [nenv; 2 * nlstm] in
  let xs := batch_to_seq (tf_layers_flatten X) nenv (nbatch / nenv) in
  let ms := batch_to_seq M nenv (nbatch / nenv) in
  lstm nlstm layer_norm X nenv =
    Ok (seq_to_batch (fst (run_cell layer_norm xs ms S nlstm)),
        Some (make_state S M (snd (run_cell layer_norm xs ms S nlstm))
                (mkArray [nenv; 2 * nlstm]
                         (repeat 0%Q (Z.to_nat (nenv * (2 * nlstm))))))).
Proof.
  intros HX Hn Hl Hb Hdiv. unfold lstm, shape0. rewrite HX. simpl.
  rewrite (floordiv_pos _ _ Hn). simpl.
  rewrite (call_batch_to_seq_ok _ _ _ [nbatch; shape_size rest]).
  - simpl. rewrite (mask_split_ok _ _ Hn Hb Hdiv). simpl.
    destruct layer_norm; simpl; unfold shape_as_list; simpl;
      (rewrite np_zeros_state by lia); reflexivity.
  - simpl. now rewrite HX.
  - now rewrite (exact_split _ _ Hn Hdiv).
  - rewrite (exact_split _ _ Hn Hdiv). unfold shape_size at 1. simpl.
    rewrite Z.mul_1_r, Z.mul_comm. apply Z_mod_mult.
Qed.

Lemma cnn_lstm_run (nlstm : Z) (layer_norm : bool) (kw : kwargs) (X : tensor)
      (nenv nbatch H W C : Z) :
  shape_of X = Some [nbatch; H; W; C] -> 0 < nenv -> 0 <= nlstm ->
  0 < nbatch -> nbatch mod nenv = 0 ->
  unbound ("unscaled_images" :: conv_keywords) kw ->
  let M := tf_placeholder tf_float32 [nbatch] in
  let S := tf_placeholder tf_float32 [nenv; 2 * nlstm] in
  let xs := batch_to_seq (nature_cnn_graph kw X) nenv (nbatch / nenv) in
  let ms := batch_to_seq M nenv (nbatch / nenv) in
  cnn_lstm nlstm layer_norm kw X nenv =
    Ok (seq_to_batch (fst (run_cell layer_norm xs ms S nlstm)),
        Some (make_state S M (snd (run_cell layer_norm xs ms S nlstm))
                (mkArray [nenv; 2 * nlstm]
                         (repeat 0%Q (Z.to_nat (nenv * (2 * nlstm))))))).
Proof.
  intros HX Hn Hl Hb Hdiv Hkw. apply unbound_cons in Hkw as [Himg Hconv].
  unfold cnn_lstm, shape0. rewrite HX. simpl.
  rewrite (floordiv_pos _ _ Hn). simpl.
  unfold call_nature_cnn, splat. simpl. rewrite Himg. simpl.
  rewrite (nature_cnn_ok _ _ Hconv). simpl.
  rewrite (call_batch_to_seq_ok _ _ _ [nbatch; 512]).
  - simpl. rewrite (mask_split_ok _ _ Hn Hb Hdiv). simpl.
    destruct layer_norm; simpl; unfold shape_as_list; simpl;
      (rewrite np_zeros_state by lia); reflexivity.
  - now apply nature_cnn_graph_shape with H W C.
  - now rewrite (exact_split _ _ Hn Hdiv).
  - rewrite (exact_split _ _ Hn Hdiv). unfold shape_size. simpl.
    rewrite Z.mul_comm. apply Z_mod_mult.
Qed.



Lemma run_cell_shape (layer_norm : bool) (xs ms : tseq) (nenv nsteps f g nlstm : Z) :
  seq_shape_of xs = Some (nsteps, [nenv; f]) ->
  seq_shape_of ms = Some (nsteps, [nenv; g]) ->
  let S := tf_placeholder tf_float32 [nenv; 2 * nlstm] in
  shape_of (seq_to_batch (fst (run_cell layer_norm xs ms S nlstm))) =
    Some [nenv * nsteps; nlstm] /\
  shape_of (snd (run_cell layer_norm xs ms S nlstm)) = Some [nenv; 2 * nlstm].
Proof.
  intros Hxs Hms S.
  subst S. destruct layer_norm; simpl; rewrite Hxs, Hms; simpl;
    rewrite Z.eqb_refl; now split.
Qed.

Lemma make_state_lookups (S M snew : tensor) (a : ndarray) :
  make_state S M snew a !! "S" = Some (DTensor S) /\
  make_state S M snew a !! "M" = Some (DTensor M) /\
  make_state S M snew a !! "state" = Some (DTensor snew) /\
  make_state S M snew a !! "initial_state" = Some (DArray a).
Proof. unfold make_state. repeat split; by simplify_map_eq. Qed.

Lemma make_state_dom (S M snew : tensor) (a : ndarray) :
  dom (make_state S M snew a) =
    ({["S"]} ∪ {["M"]} ∪ {["state"]} ∪ {["initial_state"]} : gset string).
Proof.
  unfold make_state. rewrite !dom_insert_L, dom_singleton_L. set_solver.
Qed.

(** C5, amended: called with a positive environment count [nenv] that
    divides the batch size, the network function of [lstm(nlstm)], for a
    hidden size [nlstm >= 0], returns a dictionary with the mask placeholder
    under ['M'], a state placeholder of shape [[nenv, 2*nlstm]] under ['S'],
    the updated state under ['state'] and an all-zero array of the shape of
    the state placeholder under ['initial_state']. *)
Theorem lstm_state_dictionary (nlstm : Z) (layer_norm : bool) (X : tensor)
        (nenv nbatch : Z) (rest : list Z) :
  shape_of X = Some (nbatch :: rest) -> 0 < nenv -> 0 <= nlstm ->
  0 < nbatch -> nbatch mod nenv = 0 ->
  exists h st S M snew initial_state,
    lstm nlstm layer_norm X nenv = Ok (h, Some st) /\
    st !! "M" = Some (DTensor M) /\
    M = tf_placeholder tf_float32 [nbatch] /\
    st !! "S" = Some (DTensor S) /\
    S = tf_placeholder tf_float32 [nenv; 2 * nlstm] /\
    shape_of S = Some [nenv; 2 * nlstm] /\
    st !! "state" = Some (DTensor snew) /\
    snew = cell_state (if layer_norm then utils_lnlstm else utils_lstm)
                      (batch_to_seq (tf_layers_flatten X) nenv (nbatch / nenv))
                      (batch_to_seq M nenv (nbatch / nenv)) S
                      (if layer_norm then "lnlstm" else "lstm") nlstm /\
    st !! "initial_state" = Some (DArray initial_state) /\
    Some (nd_shape initial_state) = shape_of S /\
    length (nd_data initial_state) = Z.to_nat (nenv * (2 * nlstm)) /\
    Forall (fun v => v = 0%Q) (nd_data initial_state) /\
    dom st = ({["S"]} ∪ {["M"]} ∪ {["state"]} ∪ {["initial_state"]} : gset string).
Proof.
  intros HX Hn Hl Hb Hdiv.
  pose proof (lstm_run nlstm layer_norm X nenv nbatch rest HX Hn Hl Hb Hdiv)
    as Hrun.
  cbv zeta in Hrun.
  do 6 eexists. split; [exact Hrun |].
  destruct (make_state_lookups
              (tf_placeholder tf_float32 [nenv; 2 * nlstm])
              (tf_placeholder tf_float32 [nbatch])
              (snd (run_cell layer_norm
                      (batch_to_seq (tf_layers_flatten X) nenv (nbatch / nenv))
                      (batch_to_seq (tf_placeholder tf_float32 [nbatch]) nenv
                                    (nbatch / nenv))
                      (tf_placeholder tf_float32 [nenv; 2 * nlstm]) nlstm))
              (mkArray [nenv; 2 * nlstm]
                       (repeat 0%Q (Z.to_nat (nenv * (2 * nlstm))))))
    as (HS & HM & Hstate & Hinit).
  repeat match goal with |- _ /\ _ => split end;
    try first [exact HM | exact HS | exact Hstate | exact Hinit
              | apply make_state_dom | reflexivity].
  - now destruct layer_norm.
  - simpl. apply repeat_length.
  - simpl. apply repeat_all_zero.
Qed.


(** The two cells have the same shape rules, so forgetting layer
    normalisation changes no shape. *)
Lemma forget_layer_norm_shape :
  (forall t, shape_of (forget_layer_norm t) = shape_of t) /\
  (forall s, seq_shape_of (seq_forget_layer_norm s) = seq_shape_of s).
Proof.
  apply tensor_tseq_ind; intros; simpl;
    repeat match goal with H : _ = _ |- _ => rewrite H; clear H end;
    reflexivity.
Qed.

(** The part of [cnn_lstm] that does not look at [layer_norm]. *)
Lemma cnn_lstm_inv (nlstm : Z) (layer_norm : bool) (kw : kwargs) (X : tensor)
      (nenv : Z) (o : net_output) :
  cnn_lstm nlstm layer_norm kw X nenv = Ok o ->
  exists nbatch h a,
    let M := tf_placeholder tf_float32 [nbatch] in
    let S := tf_placeholder tf_float32 [nenv; 2 * nlstm] in
    let xs := batch_to_seq h nenv (nbatch / nenv) in
    let ms := batch_to_seq M nenv (nbatch / nenv) in
    forall ln,
      cnn_lstm nlstm ln kw X nenv =
        Ok (seq_to_batch (fst (run_cell ln xs ms S nlstm)),
            Some (make_state S M (snd (run_cell ln xs ms S nlstm)) a)).
Proof.
  unfold cnn_lstm. intros Hrun.
  destruct (shape0 X) as [nbatch | e]; [| discriminate Hrun]. simpl in Hrun |- *.
  destruct (floordiv nbatch nenv) as [nsteps | e] eqn:Hdiv; [| discriminate Hrun].
  simpl in Hrun |- *.
  assert (nsteps = nbatch / nenv) as ->.
  { unfold floordiv in Hdiv. destruct (nenv =? 0); congruence. }
  destruct (call_nature_cnn X kw) as [h | e]; [| discriminate Hrun].
  simpl in Hrun |- *.
  destruct (call_batch_to_seq h nenv (nbatch / nenv)) as [xs | e] eqn:Hxs;
    [| discriminate Hrun].
  apply call_batch_to_seq_inv in Hxs as [-> _]. simpl in Hrun |- *.
  destruct (call_batch_to_seq (tf_placeholder tf_float32 [nbatch]) nenv
                              (nbatch / nenv)) as [ms | e] eqn:Hms;
    [| discriminate Hrun].
  apply call_batch_to_seq_inv in Hms as [-> _]. simpl in Hrun |- *.
  assert (Hz : exists a, np_zeros [nenv; 2 * nlstm] = Ok a).
  { destruct layer_norm; simpl in Hrun; unfold shape_as_list in Hrun;
      simpl in Hrun;
      destruct (np_zeros [nenv; 2 * nlstm]) as [a | e]; eauto; discriminate Hrun. }
  destruct Hz as [a Hz].
  exists nbatch, h, a. intros ln.
  destruct ln; simpl; unfold shape_as_list; simpl; rewrite Hz; reflexivity.
Qed.

(** C6: [cnn_lnlstm(nlstm, **kw)] is [cnn_lstm(nlstm, layer_norm=True,
    **kw)]; next to [cnn_lstm] without layer normalisation its network
    function fails on the same inputs, and otherwise returns an output of
    the same shape and a dictionary with the same keys, placeholders and
    initial state: the two differ in the kind of the recurrent cell only. *)
Theorem cnn_lnlstm_is_cnn_lstm_layer_norm (nlstm : Z) (kw : kwargs) :
  (kw !! "layer_norm" = None -> cnn_lnlstm nlstm kw = Ok (cnn_lstm nlstm true kw)) /\
  (forall v, kw !! "layer_norm" = Some v ->
     cnn_lnlstm nlstm kw = Raise (TypeError_multiple_values "cnn_lstm" "layer_norm")) /\
  (forall X nenv,
     result_map output_forget_layer_norm (cnn_lstm nlstm true kw X nenv) =
     result_map output_forget_layer_norm (cnn_lstm nlstm false kw X nenv)) /\
  (forall X nenv h st,
     cnn_lstm nlstm true kw X nenv = Ok (h, Some st) ->
     exists h' st',
       cnn_lstm nlstm false kw X nenv = Ok (h', Some st') /\
       shape_of h' = shape_of h /\
       dom st' = dom st /\
       st' !! "S" = st !! "S" /\
       st' !! "M" = st !! "M" /\
       st' !! "initial_state" = st !! "initial_state").
Proof.
  split; [| split; [| split]].
  - intros Hkw. unfold cnn_lnlstm, splat. simpl. now rewrite Hkw.
  - intros v Hkw. unfold cnn_lnlstm. now rewrite (splat_bound _ _ v).
  - intros X nenv.
    destruct (cnn_lstm nlstm true kw X nenv) as [o | e] eqn:Hrun.
    + destruct (cnn_lstm_inv _ _ _ _ _ _ Hrun) as (nbatch & h & a & Hall).
      cbv zeta in Hall. rewrite Hall in Hrun. injection Hrun as <-.
      rewrite Hall. reflexivity.
    + destruct (cnn_lstm nlstm false kw X nenv) as [o' | e'] eqn:Hrun'.
      * destruct (cnn_lstm_inv _ _ _ _ _ _ Hrun') as (nbatch & h & a & Hall).
        cbv zeta in Hall. rewrite Hall in Hrun. discriminate Hrun.
      * revert Hrun Hrun'. unfold cnn_lstm.
        destruct (shape0 X) as [nbatch | e0]; simpl; [| congruence].
        destruct (floordiv nbatch nenv) as [nsteps | e1]; simpl; [| congruence].
        destruct (call_nature_cnn X kw) as [h | e2]; simpl; [| congruence].
        destruct (call_batch_to_seq h nenv nsteps) as [xs | e3]; simpl;
          [| congruence].
        destruct (call_batch_to_seq (tf_placeholder tf_float32 [nbatch]) nenv
                                    nsteps) as [ms | e4]; simpl; [| congruence].
        unfold shape_as_list. simpl.
        destruct (np_zeros [nenv; 2 * nlstm]) as [a | e5]; simpl; congruence.
  - intros X nenv h st Hrun.
    destruct (cnn_lstm_inv _ _ _ _ _ _ Hrun) as (nbatch & hc & a & Hall).
    cbv zeta in Hall. rewrite Hall in Hrun. injection Hrun as <- <-.
    do 2 eexists. split; [apply Hall |].
    split; [reflexivity |].
    split; [now rewrite !make_state_dom |].
    repeat split; unfold make_state; by simplify_map_eq.
Qed.

(** ** Observation normalisation *)

Lemma fold_min_spec (rest : list Q) :
  forall x,
    let m := fold_left (fun acc y => if Qle_bool acc y then acc else y) rest x in
    In m (x :: rest) /\ Forall (fun v => (m <= v)%Q) (x :: rest).
Proof.
  induction rest as [| y rest IH]; intros x; simpl.
  - split; [now left | constructor; [apply Qle_refl | constructor]].
  - destruct (IH (if Qle_bool x y then x else y)) as [Hin Hall].
    simpl in Hin. inversion Hall as [| ? ? Hhd Htl]; subst.
    destruct (Qle_bool x y) eqn:Hxy.
    + apply Qle_bool_iff in Hxy. split; [tauto |].
      constructor; [exact Hhd |].
      constructor; [now apply Qle_trans with x | exact Htl].
    + assert (Hyx : (y <= x)%Q).
      { apply Qlt_le_weak, Qnot_le_lt. intros Hle.
        apply Qle_bool_iff in Hle. congruence. }
      split; [tauto |].
      constructor; [now apply Qle_trans with y |].
      constructor; [exact Hhd | exact Htl].
Qed.

Lemma fold_max_spec (rest : list Q) :
  forall x,
    let m := fold_left (fun acc y => if Qle_bool y acc then acc else y) rest x in
    In m (x :: rest) /\ Forall (fun v => (v <= m)%Q) (x :: rest).
Proof.
  induction rest as [| y rest IH]; intros x; simpl.
  - split; [now left | constructor; [apply Qle_refl | constructor]].
  - destruct (IH (if Qle_bool y x then x else y)) as [Hin Hall].
    simpl in Hin. inversion Hall as [| ? ? Hhd Htl]; subst.
    destruct (Qle_bool y x) eqn:Hyx.
    + apply Qle_bool_iff in Hyx. split; [tauto |].
      constructor; [exact Hhd |].
      constructor; [now apply Qle_trans with x | exact Htl].
    + assert (Hxy : (x <= y)%Q).
      { apply Qlt_le_weak, Qnot_le_lt. intros Hle.
        apply Qle_bool_iff in Hle. congruence. }
      split; [tauto |].
      constructor; [now apply Qle_trans with y |].
      constructor; [exact Hhd | exact Htl].
Qed.

Lemma py_min_spec (l : list Q) :
  l <> [] ->
  exists lo, py_min l = Ok lo /\ In lo l /\ Forall (fun v => (lo <= v)%Q) l.
Proof.
  destruct l as [| x rest]; [congruence |]. intros _.
  eexists. split; [reflexivity |]. apply fold_min_spec.
Qed.

Lemma py_max_spec (l : list Q) :
  l <> [] ->
  exists hi, py_max l = Ok hi /\ In hi l /\ Forall (fun v => (v <= hi)%Q) l.
Proof.
  destruct l as [| x rest]; [congruence |]. intros _.
  eexists. split; [reflexivity |]. apply fold_max_spec.
Qed.

Lemma clip_element_bounds (v lo hi : Q) :
  (lo <= hi)%Q -> (lo <= clip_element v lo hi <= hi)%Q.
Proof.
  intros Hle. unfold clip_element. split.
  - apply Q.le_max_l.
  - apply Q.max_lub; [exact Hle | apply Q.le_min_r].
Qed.

(** C8: [_normalize_clip_observation(x)] creates a [RunningMeanStd] over
    [x.shape[1:]], subtracts its mean, divides by its standard deviation,
    clips to [[min(clip_range), max(clip_range)]], which is [[-5, 5]] by
    default, and returns the clipped tensor with the estimator. *)
Theorem normalize_clip_observation_spec (x : tensor) (clip_range : list Q)
        (shape : list Z) :
  shape_of x = Some shape -> clip_range <> [] ->
  exists lo hi rms,
    _normalize_clip_observation x clip_range =
      Ok (tf_clip_by_value (tf_div (tf_sub x (rms_mean rms)) (rms_std rms)) lo hi,
          rms) /\
    rms = mkRMS (tl shape) /\
    py_min clip_range = Ok lo /\ py_max clip_range = Ok hi /\
    In lo clip_range /\ In hi clip_range /\
    Forall (fun v => (lo <= v <= hi)%Q) clip_range /\
    (forall v, (lo <= clip_element v lo hi <= hi)%Q) /\
    (clip_range = default_clip_range -> lo = (-5)%Q /\ hi = 5%Q).
Proof.
  intros Hx Hne.
  destruct (py_min_spec clip_range Hne) as (lo & Hmin & Hlo_in & Hlo).
  destruct (py_max_spec clip_range Hne) as (hi & Hmax & Hhi_in & Hhi).
  exists lo, hi, (mkRMS (tl shape)).
  assert (Hboth : Forall (fun v => (lo <= v <= hi)%Q) clip_range).
  { rewrite List.Forall_forall in *. intros v Hv. split; auto. }
  repeat match goal with |- _ /\ _ => split end; try assumption; try reflexivity.
  - unfold _normalize_clip_observation, shape_tail. rewrite Hx. simpl.
    rewrite Hmin. simpl. rewrite Hmax. reflexivity.
  - intros v. apply clip_element_bounds.
    rewrite List.Forall_forall in Hlo. now apply Hlo.
  - intros ->. simpl in Hmin, Hmax.
    injection Hmin as <-. injection Hmax as <-. now split.
Qed.

End Framework.

(** * Examples

    Two instances of the convolution shape rule, to run the builders on
    concrete inputs: no padding, and padding up to the input size. *)

Definition valid_padding (kw : kwargs) (dims : Z * Z * Z) (nf rf stride : Z)
  : Z * Z * Z :=
  let '(a, b, _) := dims in
  ((a - rf) / stride + 1, (b - rf) / stride + 1, nf).

Definition same_padding (kw : kwargs) (dims : Z * Z * Z) (nf rf stride : Z)
  : Z * Z * Z :=
  let '(a, b, _) := dims in
  ((a + stride - 1) / stride, (b + stride - 1) / stride, nf).

(** A batch of 32 stacks of four 84x84 frames. *)
Definition atari_frames : tensor := Input "X" [32; 84; 84; 4].

(** Five, and four, observations of three features. *)
Definition five_rows : tensor := Input "X" [5; 3].
Definition four_rows : tensor := Input "X" [4; 3].

Lemma get_network_builder_bogus :
  ~ In "bogus" architecture_names /\
  get_network_builder valid_padding same_padding "bogus" =
    Raise (ValueError "Unknown network type: bogus").
Proof.
  assert (Hout : ~ In "bogus" architecture_names).
  { simpl. intros H. repeat destruct H as [H | H]; try discriminate H. exact H. }
  split; [exact Hout |].
  destruct (get_network_builder_closed valid_padding same_padding)
    as (_ & _ & _ & _ & _ & _ & _ & Hclosed).
  exact (Hclosed "bogus" Hout).
Defined.

Lemma mlp_three_layers_raise :
  2 < 3 /\ snd (mlp 3 64 (Some tf_tanh) atari_frames) = Raise IndexError.
Proof.
  assert (H : 2 < 3) by lia.
  split; [exact H |].
  exact (proj1 (mlp_num_layers_drives_loop 64 (Some tf_tanh) atari_frames) 3 H).
Defined.

(** With [num_layers=0] the flattened input comes back, of shape
    [[32, 84*84*4]] and not [[32, 64]]. *)
Lemma mlp_no_layer_keeps_input_width :
  exists h,
    snd (mlp 0 64 (Some tf_tanh) atari_frames) = Ok (h, None) /\
    shape_of valid_padding same_padding h = Some [32; 28224] /\
    shape_of valid_padding same_padding h <> Some [32; 64].
Proof.
  eexists. split; [reflexivity |]. split; [reflexivity |]. discriminate.
Qed.

Lemma mlp_output_shape_default :
  exists h,
    snd (mlp 2 64 (Some tf_tanh) atari_frames) = Ok (h, None) /\
    shape_of valid_padding same_padding h = Some [32; 64].
Proof.
  apply (mlp_output_shape valid_padding same_padding 2 64 (Some tf_tanh)
                          atari_frames 32 84 84 4).
  - reflexivity.
  - right. reflexivity.
Defined.

(** With [num_layers=1] a single dense layer is built: [num_layers] is not
    overridden. *)
Lemma mlp_one_layer_is_not_two :
  snd (mlp 1 64 (Some tf_tanh) atari_frames) <>
    Ok (two_relu_layers_of_64 atari_frames, None) /\
  snd (mlp 1 64 (Some tf_tanh) atari_frames) <>
    snd (mlp 2 64 (Some tf_tanh) atari_frames).
Proof. split; intros H; discriminate H. Qed.

Lemma mlp_hard_coded_layers_default :
  exists h,
    snd (mlp 2 256 None atari_frames) = Ok (h, None) /\
    Z.of_nat (length (fc_layers h)) = 2 /\
    Forall (fun layer => snd layer = 64) (fc_layers h).
Proof.
  apply (proj2 (proj2 (mlp_hard_coded_layers 256 None atari_frames))).
  - lia.
  - reflexivity.
Defined.

Lemma cnn_network_atari :
  unbound ("unscaled_images" :: conv_keywords) ∅ /\
  exists h,
    cnn ∅ atari_frames = Ok (h, None) /\
    conv_layers h = [(32, 8, 4); (64, 4, 2); (64, 3, 1)] /\
    shape_of valid_padding same_padding h = Some [32; 512].
Proof.
  assert (Hkw : unbound ("unscaled_images" :: conv_keywords) ∅) by reflexivity.
  split; [exact Hkw |].
  destruct (cnn_network valid_padding same_padding ∅ atari_frames Hkw)
    as [Hrun Hall].
  eexists. split; [exact Hrun |].
  destruct (Hall _ Hrun) as [Hlayers Hshape]. split.
  - apply Hlayers. reflexivity.
  - apply (Hshape 32 84 84 4). reflexivity.
Defined.

Lemma lstm_128_two_environments :
  shape_of valid_padding same_padding four_rows = Some [4; 3] /\
  exists h st S initial_state,
    lstm valid_padding same_padding 128 false four_rows 2 = Ok (h, Some st) /\
    st !! "S" = Some (DTensor S) /\
    shape_of valid_padding same_padding S = Some [2; 256] /\
    st !! "initial_state" = Some (DArray initial_state) /\
    Some (nd_shape initial_state) = Some [2; 256] /\
    length (nd_data initial_state) = 512%nat /\
    Forall (fun v => v = 0%Q) (nd_data initial_state).
Proof.
  split; [reflexivity |].
  destruct (lstm_state_dictionary valid_padding same_padding 128 false four_rows
                                  2 4 [3])
    as (h & st & S & M & snew & a & Hrun & _ & _ & HS & _ & Hshape & _ & _
        & Ha & Hzshape & Hlen & Hzero & _).
  - reflexivity.
  - lia.
  - lia.
  - lia.
  - reflexivity.
  - exists h, st, S, a.
    rewrite Hshape in Hzshape. repeat split; assumption.
Defined.

(** [lstm(nlstm=128)(X, nenv=0)] raises [ZeroDivisionError] and returns no
    dictionary. *)
Lemma lstm_no_environment_no_dictionary :
  lstm valid_padding same_padding 128 false four_rows 0 = Raise ZeroDivisionError /\
  ~ exists h st,
      lstm valid_padding same_padding 128 false four_rows 0 = Ok (h, Some st).
Proof.
  split; [reflexivity |]. intros (h & st & Hrun). discriminate Hrun.
Qed.

Lemma cnn_lnlstm_without_keywords :
  (∅ : kwargs) !! "layer_norm" = None /\
  cnn_lnlstm valid_padding same_padding 128 ∅ =
    Ok (cnn_lstm valid_padding same_padding 128 true ∅).
Proof.
  assert (Hkw : (∅ : kwargs) !! "layer_norm" = None) by reflexivity.
  split; [exact Hkw |].
  exact (proj1 (cnn_lnlstm_is_cnn_lstm_layer_norm valid_padding same_padding 128 ∅)
               Hkw).
Defined.

(** By default [conv_only] builds three convolutions, not two. *)
Lemma conv_only_default_has_three_layers :
  exists out,
    conv_only conv_only_default_convs ∅ atari_frames = Ok (out, None) /\
    conv_layers out = [(32, 8, 4); (64, 4, 2); (64, 3, 1)] /\
    length (conv_layers out) <> 2%nat.
Proof.
  eexists. split; [reflexivity |]. split; [reflexivity |]. discriminate.
Qed.

Lemma small_convolutional_builders_atari :
  unbound conv_keywords ∅ /\
  (exists h,
     cnn_small ∅ atari_frames = Ok (h, None) /\
     conv_layers h = [(8, 8, 4); (16, 4, 2)]) /\
  (exists out,
     conv_only [(16, 8, 4); (32, 4, 2)] ∅ atari_frames = Ok (out, None) /\
     conv_layers out = [(16, 8, 4); (32, 4, 2)]).
Proof.
  assert (Hkw : unbound conv_keywords ∅) by reflexivity.
  assert (Hkw2 : unbound convolution2d_keywords ∅) by reflexivity.
  split; [exact Hkw |].
  destruct (small_convolutional_builders ∅ atari_frames) as (Hsmall & Honly & _).
  split.
  - destruct (Hsmall Hkw) as (h & Hrun & _ & Hlayers).
    exists h. split; [exact Hrun |]. apply Hlayers. reflexivity.
  - destruct (Honly [(16, 8, 4); (32, 4, 2)] (or_intror Hkw2))
      as (out & Hrun & _ & Hlayers).
    exists out. split; [exact Hrun |]. apply Hlayers. reflexivity.
Defined.

Lemma normalize_clip_observation_default :
  default_clip_range <> [] /\
  exists norm_x rms,
    _normalize_clip_observation valid_padding same_padding five_rows
                                default_clip_range = Ok (norm_x, rms) /\
    rms = mkRMS [3] /\
    norm_x = tf_clip_by_value
               (tf_div (tf_sub five_rows (rms_mean rms)) (rms_std rms))
               (-5)%Q 5%Q.
Proof.
  assert (Hne : default_clip_range <> []) by discriminate.
  split; [exact Hne |].
  destruct (normalize_clip_observation_spec valid_padding same_padding five_rows
                                            default_clip_range [5; 3])
    as (lo & hi & rms & Hrun & Hrms & _ & _ & _ & _ & _ & _ & Hdefault).
  - reflexivity.
  - exact Hne.
  - destruct (Hdefault eq_refl) as [-> ->].
    exists (tf_clip_by_value
              (tf_div (tf_sub five_rows (rms_mean rms)) (rms_std rms))
              (-5)%Q 5%Q), rms.
    split; [exact Hrun |]. split; [exact Hrms | reflexivity].
Defined.



(** * Further properties of the builders *)

Section Builders.

Variable conv_out : kwargs -> Z * Z * Z -> Z -> Z -> Z -> Z * Z * Z.
Variable convolution2d_out : kwargs -> Z * Z * Z -> Z -> Z -> Z -> Z * Z * Z.

Local Abbreviation shape := (shape_of conv_out convolution2d_out).

(** ** Keywords that the builders fix themselves *)

Lemma first_bound_some (keys : list string) (kw : kwargs) (k : string) :
  first_bound keys kw = Some k -> In k keys /\ exists v, kw !! k = Some v.
Proof.
  induction keys as [| k0 keys IH]; simpl; [discriminate |].
  destruct (kw !! k0) as [v |] eqn:Hk0.
  - intros [= <-]. split; [now left | eauto].
  - intros Hk. destruct (IH Hk) as [Hin Hv]. split; [now right | exact Hv].
Qed.

Lemma bound_some (keys : list string) (kw : kwargs) :
  ~ unbound keys kw ->
  exists k, first_bound keys kw = Some k /\ In k keys /\ exists v, kw !! k = Some v.
Proof.
  unfold unbound. intros Hb.
  destruct (first_bound keys kw) as [k |] eqn:Hk; [| congruence].
  exists k. split; [reflexivity | now apply first_bound_some].
Qed.

Lemma call_conv_bound (x : tensor) (scope : string) (nf rf stride : Z)
      (s : scale) (kw : kwargs) (k : string) :
  first_bound conv_keywords kw = Some k ->
  call_conv x scope nf rf stride s kw = Raise (TypeError_multiple_values "conv" k).
Proof. intros Hk. unfold call_conv, splat. now rewrite Hk. Qed.

(** The filters, kernels, strides and initialisation scale of [cnn] cannot
    be changed through [conv_kwargs]: when [conv_kwargs] binds
    [unscaled_images] the call of [nature_cnn] raises [TypeError]; when it
    binds one of [nf], [rf], [stride], [init_scale] the first call of [conv]
    raises [TypeError] for one of them.  So the network function can only
    succeed with a [conv_kwargs] that binds none of the five. *)
Theorem cnn_keyword_clash (kw : kwargs) (X : tensor) :
  (forall v, kw !! "unscaled_images" = Some v ->
     cnn kw X = Raise (TypeError_multiple_values "nature_cnn" "unscaled_images")) /\
  (kw !! "unscaled_images" = None -> ~ unbound conv_keywords kw ->
   exists k v,
     In k conv_keywords /\ kw !! k = Some v /\
     cnn kw X = Raise (TypeError_multiple_values "conv" k)) /\
  (forall o, cnn kw X = Ok o ->
     unbound ("unscaled_images" :: conv_keywords) kw).
Proof.
  assert (Himg : forall v, kw !! "unscaled_images" = Some v ->
            cnn kw X = Raise (TypeError_multiple_values "nature_cnn" "unscaled_images")).
  { intros v Hv. unfold cnn, call_nature_cnn. now rewrite (splat_bound _ _ v). }
  assert (Hconv : kw !! "unscaled_images" = None -> ~ unbound conv_keywords kw ->
            exists k v,
              In k conv_keywords /\ kw !! k = Some v /\
              cnn kw X = Raise (TypeError_multiple_values "conv" k)).
  { intros Hnone Hb. destruct (bound_some _ _ Hb) as (k & Hk & Hin & v & Hv).
    exists k, v. split; [exact Hin |]. split; [exact Hv |].
    unfold cnn, call_nature_cnn, splat. simpl. rewrite Hnone. simpl.
    unfold nature_cnn. now rewrite (call_conv_bound _ _ _ _ _ _ _ _ Hk). }
  split; [exact Himg | split; [exact Hconv |]].
  intros o Hrun.
  destruct (kw !! "unscaled_images") as [v |] eqn:Hv.
  - rewrite (Himg v eq_refl) in Hrun. discriminate Hrun.
  - destruct (first_bound conv_keywords kw) as [k |] eqn:Hk.
    + destruct (Hconv eq_refl) as (k' & v' & _ & _ & Hraise).
      { unfold unbound. congruence. }
      rewrite Hraise in Hrun. discriminate Hrun.
    + apply (proj2 (unbound_cons conv_out convolution2d_out _ _ _)).
      split; assumption.
Qed.

(** [cnn_small] returns a [[N, 128]] tensor and no state whenever
    [conv_kwargs] leaves [nf], [rf], [stride] and [init_scale] alone, and
    raises [TypeError] at its first convolution otherwise. *)
Theorem cnn_small_network (kw : kwargs) (X : tensor) :
  (unbound conv_keywords kw ->
   forall N H W C, shape X = Some [N; H; W; C] ->
     exists h, cnn_small kw X = Ok (h, None) /\ shape h = Some [N; 128]) /\
  (~ unbound conv_keywords kw ->
   exists k v,
     In k conv_keywords /\ kw !! k = Some v /\
     cnn_small kw X = Raise (TypeError_multiple_values "conv" k)).
Proof.
  split.
  - intros Hkw N H W C HX.
    eexists. split.
    { unfold cnn_small, call_conv. rewrite (splat_unbound _ _ _ Hkw). reflexivity. }
    simpl. rewrite HX.
    destruct (conv_out kw (H, W, C) 8 8 4) as [[a1 b1] c1].
    destruct (conv_out kw (a1, b1, c1) 16 4 2) as [[a2 b2] c2].
    reflexivity.
  - intros Hb. destruct (bound_some _ _ Hb) as (k & Hk & Hin & v & Hv).
    exists k, v. split; [exact Hin |]. split; [exact Hv |].
    unfold cnn_small. now rewrite (call_conv_bound _ _ _ _ _ _ _ _ Hk).
Qed.

(** ** conv_only *)

Lemma conv_only_fold_shape (kw : kwargs) (convs : list (Z * Z * Z)) :
  forall out N a b c,
    shape out = Some [N; a; b; c] ->
    exists a' b' c',
      shape (fold_left (conv_only_step kw) convs out) = Some [N; a'; b'; c'].
Proof.
  induction convs as [| [[n k] s] convs IH]; intros out N a b c Hout; simpl.
  - eauto.
  - destruct (convolution2d_out kw (a, b, c) n k s) as [[a1 b1] c1] eqn:Hc.
    apply (IH _ N a1 b1 c1). simpl. rewrite Hout, Hc. reflexivity.
Qed.

(** [conv_only] keeps the batch dimension and never flattens: on a
    four-dimensional input its output is four-dimensional with the same
    first dimension, however many convolutions [convs] lists.  With an empty
    [convs] it calls no convolution, so it returns the rescaled input even
    for keywords that would clash; with a non-empty [convs] a clashing
    keyword raises [TypeError]. *)
Theorem conv_only_outcome (convs : list (Z * Z * Z)) (kw : kwargs) (X : tensor) :
  (forall N H W C,
     convs = [] \/ unbound convolution2d_keywords kw ->
     shape X = Some [N; H; W; C] ->
     exists out a b c,
       conv_only convs kw X = Ok (out, None) /\ shape out = Some [N; a; b; c]) /\
  conv_only [] kw X = Ok (tf_div_scalar (tf_cast X tf_float32) 255, None) /\
  (convs <> [] -> ~ unbound convolution2d_keywords kw ->
   exists k v,
     In k convolution2d_keywords /\ kw !! k = Some v /\
     conv_only convs kw X = Raise (TypeError_multiple_values "convolution2d" k)).
Proof.
  split; [| split; [reflexivity |]].
  - intros N H W C Hok HX.
    assert (Hrun : conv_only convs kw X =
              Ok (fold_left (conv_only_step kw) convs
                            (tf_div_scalar (tf_cast X tf_float32) 255), None)).
    { unfold conv_only. now rewrite (conv_only_loop_ok _ _ Hok). }
    destruct (conv_only_fold_shape kw convs
                (tf_div_scalar (tf_cast X tf_float32) 255) N H W C HX)
      as (a & b & c & Hshape).
    exists (fold_left (conv_only_step kw) convs
                      (tf_div_scalar (tf_cast X tf_float32) 255)), a, b, c.
    split; assumption.
  - intros Hne Hb. destruct (bound_some _ _ Hb) as (k & Hk & Hin & v & Hv).
    exists k, v. split; [exact Hin |]. split; [exact Hv |].
    destruct convs as [| [[n ks] s] convs]; [congruence |].
    unfold conv_only. simpl. unfold splat. now rewrite Hk.
Qed.

(** ** mlp *)

(** A [num_layers] of zero or below builds no dense layer at all: [range]
    is empty, and the network function returns the flattened input, of
    shape [[N, H*W*C]], whatever [num_hidden] says. *)
Theorem mlp_without_layers (num_layers num_hidden : Z) (act : option activation)
        (X : tensor) :
  num_layers <= 0 ->
  snd (mlp num_layers num_hidden act X) = Ok (tf_layers_flatten X, None) /\
  (forall N H W C, shape X = Some [N; H; W; C] ->
     shape (tf_layers_flatten X) = Some [N; H * (W * C)]).
Proof.
  intros Hn. split.
  - unfold mlp. simpl. now rewrite (range_nonpos _ Hn).
  - intros N H W C HX. simpl. rewrite HX. unfold shape_size. simpl.
    now rewrite Z.mul_1_r.
Qed.

(** ** The recurrent builders *)

(** Both recurrent network functions look at the batch size and divide it
    by [nenv] before they add anything to the graph: with [nenv = 0] they
    raise [ZeroDivisionError], and on a scalar input [IndexError], whatever
    [conv_kwargs] holds. *)
Theorem recurrent_fail_before_building (nlstm : Z) (layer_norm : bool)
        (kw : kwargs) (X : tensor) :
  (forall nbatch rest, shape X = Some (nbatch :: rest) ->
     lstm conv_out convolution2d_out nlstm layer_norm X 0 = Raise ZeroDivisionError /\
     cnn_lstm conv_out convolution2d_out nlstm layer_norm kw X 0 =
       Raise ZeroDivisionError) /\
  (shape X = Some [] ->
   forall nenv,
     lstm conv_out convolution2d_out nlstm layer_norm X nenv = Raise IndexError /\
     cnn_lstm conv_out convolution2d_out nlstm layer_norm kw X nenv =
       Raise IndexError).
Proof.
  split.
  - intros nbatch rest HX. unfold lstm, cnn_lstm, shape0. rewrite HX. now split.
  - intros HX nenv. unfold lstm, cnn_lstm, shape0. rewrite HX. now split.
Qed.

(** When [nenv] divides the batch size, the dictionary of [cnn_lstm] has
    the four entries of [lstm]'s: the mask placeholder of the batch size, the
    state placeholder of shape [[nenv, 2*nlstm]], the new state of the cell
    that [layer_norm] selects, run on the output of [nature_cnn], and the
    all-zero initial state.  A network function built by [cnn_lnlstm] always
    runs the layer-normalised cell. *)
Theorem cnn_lstm_state_dictionary (nlstm : Z) (layer_norm : bool) (kw : kwargs)
        (X : tensor) (nenv nbatch H W C : Z) :
  shape X = Some [nbatch; H; W; C] -> 0 < nenv -> 0 <= nlstm ->
  0 < nbatch -> nbatch mod nenv = 0 ->
  unbound ("unscaled_images" :: conv_keywords) kw ->
  let M := tf_placeholder tf_float32 [nbatch] in
  let S := tf_placeholder tf_float32 [nenv; 2 * nlstm] in
  let xs := batch_to_seq (nature_cnn_graph kw X) nenv (nbatch / nenv) in
  let ms := batch_to_seq M nenv (nbatch / nenv) in
  (exists h st initial_state,
     cnn_lstm conv_out convolution2d_out nlstm layer_norm kw X nenv =
       Ok (h, Some st) /\
     st !! "M" = Some (DTensor M) /\
     st !! "S" = Some (DTensor S) /\
     st !! "state" =
       Some (DTensor (cell_state (if layer_norm then utils_lnlstm else utils_lstm)
                                 xs ms S
                                 (if layer_norm then "lnlstm" else "lstm") nlstm)) /\
     st !! "initial_state" = Some (DArray initial_state) /\
     nd_shape initial_state = [nenv; 2 * nlstm] /\
     nd_data initial_state = repeat 0%Q (Z.to_nat (nenv * (2 * nlstm))) /\
     dom st = ({["S"]} ∪ {["M"]} ∪ {["state"]} ∪ {["initial_state"]} : gset string)) /\
  (forall f, cnn_lnlstm conv_out convolution2d_out nlstm kw = Ok f ->
     exists h st,
       f X nenv = Ok (h, Some st) /\
       st !! "state" =
         Some (DTensor (cell_state utils_lnlstm xs ms S "lnlstm" nlstm))).
Proof.
  intros HX Hn Hl Hb Hdiv Hkw M S xs ms.
  assert (Hrun : forall ln,
            cnn_lstm conv_out convolution2d_out nlstm ln kw X nenv =
              Ok (seq_to_batch (fst (run_cell ln xs ms S nlstm)),
                  Some (make_state S M (snd (run_cell ln xs ms S nlstm))
                          (mkArray [nenv; 2 * nlstm]
                             (repeat 0%Q (Z.to_nat (nenv * (2 * nlstm)))))))).
  { intros ln.
    exact (cnn_lstm_run conv_out convolution2d_out nlstm ln kw X nenv nbatch H W C
                        HX Hn Hl Hb Hdiv Hkw). }
  split.
  - do 3 eexists. split; [apply Hrun |].
    destruct (make_state_lookups S M (snd (run_cell layer_norm xs ms S nlstm))
                (mkArray [nenv; 2 * nlstm]
                   (repeat 0%Q (Z.to_nat (nenv * (2 * nlstm))))))
      as (HS & HM & Hstate & Hinit).
    repeat match goal with |- _ /\ _ => split end;
      try first [exact HM | exact HS | exact Hinit | apply make_state_dom
                | reflexivity].
    rewrite Hstate. now destruct layer_norm.
  - intros f Hf. unfold cnn_lnlstm in Hf.
    destruct (splat "cnn_lstm" ["layer_norm"] kw); [| discriminate Hf].
    simpl in Hf. injection Hf as <-.
    do 2 eexists. split; [apply Hrun |].
    apply (make_state_lookups S M).
Qed.

(** When the environment count divides the batch size, the output of the
    recurrent network functions is a flat batch again: [[nbatch, nlstm]],
    with a new state of shape [[nenv, 2*nlstm]], for either cell. *)
Theorem recurrent_output_shape (nlstm : Z) (layer_norm : bool) (kw : kwargs)
        (X : tensor) (nenv nbatch : Z) (rest : list Z) :
  shape X = Some (nbatch :: rest) ->
  0 < nenv -> 0 < nbatch -> 0 <= nlstm -> nbatch mod nenv = 0 ->
  (exists h st snew,
     lstm conv_out convolution2d_out nlstm layer_norm X nenv = Ok (h, Some st) /\
     shape h = Some [nbatch; nlstm] /\
     st !! "state" = Some (DTensor snew) /\
     shape snew = Some [nenv; 2 * nlstm]) /\
  (unbound ("unscaled_images" :: conv_keywords) kw ->
   (exists H W C, rest = [H; W; C]) ->
   exists h st snew,
     cnn_lstm conv_out convolution2d_out nlstm layer_norm kw X nenv =
       Ok (h, Some st) /\
     shape h = Some [nbatch; nlstm] /\
     st !! "state" = Some (DTensor snew) /\
     shape snew = Some [nenv; 2 * nlstm]).
Proof.
  intros HX Hn Hb Hl Hdiv.
  pose proof (exact_split _ _ Hn Hdiv) as Hexact.
  assert (Hms : seq_shape_of conv_out convolution2d_out
                  (batch_to_seq (tf_placeholder tf_float32 [nbatch]) nenv
                                (nbatch / nenv)) =
                Some (nbatch / nenv, [nenv; shape_size [nbatch] / (nenv * (nbatch / nenv))])).
  { apply batch_to_seq_shape; [reflexivity | lia |].
    rewrite Hexact. unfold shape_size. simpl. rewrite Z.mul_1_r.
    apply Z_mod_same_full. }
  split.
  - pose proof (lstm_run conv_out convolution2d_out nlstm layer_norm X nenv nbatch
                         rest HX Hn Hl Hb Hdiv) as Hrun. cbv zeta in Hrun.
    assert (Hxs : seq_shape_of conv_out convolution2d_out
                    (batch_to_seq (tf_layers_flatten X) nenv (nbatch / nenv)) =
                  Some (nbatch / nenv,
                        [nenv; shape_size [nbatch; shape_size rest]
                               / (nenv * (nbatch / nenv))])).
    { apply batch_to_seq_shape; [simpl; now rewrite HX | lia |].
      rewrite Hexact. unfold shape_size at 1. simpl. rewrite Z.mul_1_r.
      rewrite Z.mul_comm. apply Z_mod_mult. }
    destruct (run_cell_shape conv_out convolution2d_out layer_norm _ _ _ _ _ _
                             nlstm Hxs Hms) as [Hh Hs].
    do 3 eexists. split; [exact Hrun |].
    split; [now rewrite Hh, Hexact |].
    split; [apply make_state_lookups | exact Hs].
  - intros Hkw (H & W & C & ->).
    pose proof (cnn_lstm_run conv_out convolution2d_out nlstm layer_norm kw X nenv
                             nbatch H W C HX Hn Hl Hb Hdiv Hkw) as Hrun.
    cbv zeta in Hrun.
    assert (Hxs : seq_shape_of conv_out convolution2d_out
                    (batch_to_seq (nature_cnn_graph kw X) nenv (nbatch / nenv)) =
                  Some (nbatch / nenv,
                        [nenv; shape_size [nbatch; 512] / (nenv * (nbatch / nenv))])).
    { apply batch_to_seq_shape;
        [now apply nature_cnn_graph_shape with H W C | lia |].
      rewrite Hexact. unfold shape_size. simpl.
      rewrite Z.mul_comm. apply Z_mod_mult. }
    destruct (run_cell_shape conv_out convolution2d_out layer_norm _ _ _ _ _ _
                             nlstm Hxs Hms) as [Hh Hs].
    do 3 eexists. split; [exact Hrun |].
    split; [now rewrite Hh, Hexact |].
    split; [apply make_state_lookups | exact Hs].
Qed.

(** ** Observation normalisation *)

Lemma broadcast_rev_prefix (a c : list Z) :
  broadcast_rev (a ++ c)%list a = Some (a ++ c)%list.
Proof.
  induction a as [| x a IH]; simpl.
  - now destruct c.
  - now rewrite Z.eqb_refl, IH.
Qed.

(** A shape broadcasts with its own tail to itself. *)
Lemma broadcast_tail (s : list Z) : broadcast s (tl s) = Some s.
Proof.
  unfold broadcast. destruct s as [| n t]; [reflexivity |].
  simpl. rewrite broadcast_rev_prefix.
  now rewrite rev_app_distr, rev_involutive.
Qed.

(** Normalising keeps the shape of the observations: the estimator is
    built over [x.shape[1:]], which broadcasts against [x].  An empty
    [clip_range] makes [min] raise [ValueError]. *)
Theorem normalize_clip_observation_shape (x : tensor) (clip_range : list Q)
        (s : list Z) :
  shape x = Some s ->
  (clip_range = [] ->
   _normalize_clip_observation conv_out convolution2d_out x clip_range =
     Raise (ValueError "min() arg is an empty sequence")) /\
  (clip_range <> [] ->
   exists norm_x rms,
     _normalize_clip_observation conv_out convolution2d_out x clip_range =
       Ok (norm_x, rms) /\
     shape norm_x = Some s /\
     rms_shape rms = tl s).
Proof.
  intros Hx. split.
  - intros ->. unfold _normalize_clip_observation, shape_tail. now rewrite Hx.
  - intros Hne.
    destruct (py_min_spec clip_range Hne) as (lo & Hmin & _).
    destruct (py_max_spec clip_range Hne) as (hi & Hmax & _).
    do 2 eexists. split; [| split].
    + unfold _normalize_clip_observation, shape_tail. rewrite Hx. simpl.
      rewrite Hmin. simpl. rewrite Hmax. reflexivity.
    + simpl. rewrite Hx, broadcast_tail. apply broadcast_tail.
    + reflexivity.
Qed.

End Builders.

(** ** Examples *)

(** [cnn(stride=2)]. *)
Definition stride_two : kwargs := {["stride" := PyInt 2]}.

Lemma cnn_stride_keyword_raises :
  stride_two !! "unscaled_images" = None /\
  ~ unbound conv_keywords stride_two /\
  exists k v,
    In k conv_keywords /\ stride_two !! k = Some v /\
    cnn stride_two atari_frames = Raise (TypeError_multiple_values "conv" k).
Proof.
  assert (Himg : stride_two !! "unscaled_images" = None) by reflexivity.
  assert (Hb : ~ unbound conv_keywords stride_two) by discriminate.
  split; [exact Himg |]. split; [exact Hb |].
  destruct (cnn_keyword_clash valid_padding same_padding stride_two atari_frames)
    as (_ & Hconv & _).
  exact (Hconv Himg Hb).
Defined.

Lemma cnn_small_atari_shape :
  unbound conv_keywords ∅ /\
  exists h,
    cnn_small ∅ atari_frames = Ok (h, None) /\
    shape_of valid_padding same_padding h = Some [32; 128].
Proof.
  assert (Hkw : unbound conv_keywords ∅) by reflexivity.
  split; [exact Hkw |].
  exact (proj1 (cnn_small_network valid_padding same_padding ∅ atari_frames)
               Hkw 32 84 84 4 eq_refl).
Defined.

Lemma conv_only_atari_shape :
  unbound convolution2d_keywords ∅ /\
  exists out a b c,
    conv_only conv_only_default_convs ∅ atari_frames = Ok (out, None) /\
    shape_of valid_padding same_padding out = Some [32; a; b; c].
Proof.
  assert (Hkw : unbound convolution2d_keywords ∅) by reflexivity.
  split; [exact Hkw |].
  exact (proj1 (conv_only_outcome valid_padding same_padding
                                  conv_only_default_convs ∅ atari_frames)
               32 84 84 4 (or_intror Hkw) eq_refl).
Defined.

Lemma mlp_negative_layers :
  -1 <= 0 /\
  snd (mlp (-1) 64 (Some tf_tanh) atari_frames) =
    Ok (tf_layers_flatten atari_frames, None).
Proof.
  assert (Hn : -1 <= 0) by lia.
  split; [exact Hn |].
  exact (proj1 (mlp_without_layers valid_padding same_padding (-1) 64
                                   (Some tf_tanh) atari_frames Hn)).
Defined.

Lemma lstm_zero_environments :
  lstm valid_padding same_padding 128 false four_rows 0 = Raise ZeroDivisionError /\
  cnn_lstm valid_padding same_padding 128 false stride_two four_rows 0 =
    Raise ZeroDivisionError.
Proof.
  exact (proj1 (recurrent_fail_before_building valid_padding same_padding 128 false
                                               stride_two four_rows)
               4 [3] eq_refl).
Defined.

Lemma cnn_lstm_atari_state :
  exists h st initial_state,
    cnn_lstm valid_padding same_padding 128 true ∅ atari_frames 4 = Ok (h, Some st) /\
    st !! "S" = Some (DTensor (tf_placeholder tf_float32 [4; 256])) /\
    st !! "initial_state" = Some (DArray initial_state) /\
    nd_shape initial_state = [4; 256] /\
    nd_data initial_state = repeat 0%Q 1024.
Proof.
  assert (Hkw : unbound ("unscaled_images" :: conv_keywords) ∅) by reflexivity.
  destruct (cnn_lstm_state_dictionary valid_padding same_padding 128 true ∅
              atari_frames 4 32 84 84 4 eq_refl ltac:(lia) ltac:(lia) ltac:(lia)
              eq_refl Hkw)
    as [(h & st & a & Hrun & _ & HS & _ & Ha & Hshape & Hdata & _) _].
  exists h, st, a. repeat split; assumption.
Defined.

Lemma lstm_four_rows_shape :
  4 mod 2 = 0 /\
  exists h st snew,
    lstm valid_padding same_padding 128 false four_rows 2 = Ok (h, Some st) /\
    shape_of valid_padding same_padding h = Some [4; 128] /\
    st !! "state" = Some (DTensor snew) /\
    shape_of valid_padding same_padding snew = Some [2; 256].
Proof.
  split; [reflexivity |].
  exact (proj1 (recurrent_output_shape valid_padding same_padding 128 false ∅
                  four_rows 2 4 [3] eq_refl ltac:(lia) ltac:(lia) ltac:(lia)
                  eq_refl)).
Defined.

Lemma normalize_five_rows_shape :
  default_clip_range <> [] /\
  exists norm_x rms,
    _normalize_clip_observation valid_padding same_padding five_rows
                                default_clip_range = Ok (norm_x, rms) /\
    shape_of valid_padding same_padding norm_x = Some [5; 3] /\
    rms_shape rms = [3].
Proof.
  assert (Hne : default_clip_range <> []) by discriminate.
  split; [exact Hne |].
  exact (proj2 (normalize_clip_observation_shape valid_padding same_padding
                  five_rows default_clip_range [5; 3] eq_refl) Hne).
Defined.
